(** * techWelcome: the post routes (routes/api/post.js)

    A shallow embedding of the Express handlers of [routes/api/post.js]
    and of the parts of their collaborators (Mongoose models, the
    express-validator chain, the [res] object) that the handlers touch,
    followed by the properties of the handlers.

    Conventions.
    - An ObjectId is represented by its hexadecimal string, the value
      [toString()] gives; [req.user.id], set by the [auth] middleware, is such
      a string.
    - JavaScript's [null]/[undefined] result of a lookup is [None].
    - A handler is a computation in the monad [M]: it threads the state of the
      world (collections, console, pending repository faults) and the response
      under construction, and ends normally, by an early [return], or with a
      thrown error. *)

From Stdlib Require Import List String Ascii ZArith NArith Lia Bool.
From Stdlib Require Import Permutation Sorted.
Import ListNotations.
Local Open Scope string_scope.
Local Open Scope list_scope.
Local Open Scope Z_scope.

(* ===================================================================== *)
(** * JavaScript values used by the handlers *)
(* ===================================================================== *)

Module Js.

(** An error object as the [catch] clauses see it: they read [err.kind],
    [err.value] and [err.message]. *)
Record error := mkError {
  err_name : string;
  err_kind : option string;
  err_value : option string;
  err_message : string
}.

(** [null.prop]: the TypeError V8 raises on a property read of [null]. *)
Definition null_deref (prop : string) : error :=
  mkError "TypeError" None None
          ("Cannot read property '" ++ prop ++ "' of null")%string.

(** An identifier with no binding in scope. *)
Definition not_defined (x : string) : error :=
  mkError "ReferenceError" None None (x ++ " is not defined")%string.

(** Mongoose's CastError for a value that is no ObjectId. *)
Definition cast_error (value : string) : error :=
  mkError "CastError" (Some "ObjectId") (Some value)
          ("Cast to ObjectId failed for value " ++ value)%string.

(** [res.json]/[res.send] on a response that was already sent. *)
Definition headers_sent : error :=
  mkError "Error" None None
          "Cannot set headers after they are sent to the client".

(** Truthiness of a string: every string but the empty one. *)
Definition truthy (s : string) : bool := negb (String.eqb s "").

(** [err.kind === 'ObjectId'] *)
Definition kind_is (e : error) (k : string) : bool :=
  match err_kind e with
  | Some k' => String.eqb k' k
  | None => false
  end.

Section Arrays.
Variable A : Type.

(** [arr.unshift(x)] *)
Definition unshift (x : A) (arr : list A) : list A := x :: arr.

(** [arr.indexOf(x)]: the first position holding [x], or -1. The argument
    may be [undefined] ([None]), which no document equals. The arrays of
    the handlers hold objects, compared by identity; the argument is always
    the result of [find] on the same array, and for such an argument the
    first position of an equal value is the first position of the object
    itself (see [indexOf_find]). *)
Variable eqb : A -> A -> bool.

Fixpoint index_from (i : Z) (x : A) (arr : list A) : Z :=
  match arr with
  | [] => -1
  | y :: arr' => if eqb y x then i else index_from (i + 1) x arr'
  end.

Definition indexOf (arr : list A) (x : option A) : Z :=
  match x with
  | Some v => index_from 0 v arr
  | None => -1
  end.

(** [arr.splice(start, deleteCount)], the array after the call: a negative
    [start] counts from the end, and both arguments are clamped. *)
Definition splice (start deleteCount : Z) (arr : list A) : list A :=
  let len := Z.of_nat (List.length arr) in
  let from := if start <? 0 then Z.max (len + start) 0
              else Z.min start len in
  let count := Z.min (Z.max deleteCount 0) (len - from) in
  firstn (Z.to_nat from) arr ++ skipn (Z.to_nat (from + count)) arr.

End Arrays.

Arguments unshift {A} x arr.
Arguments index_from {A} eqb i x arr.
Arguments indexOf {A} eqb arr x.
Arguments splice {A} start deleteCount arr.

End Js.

(* ===================================================================== *)
(** * Documents *)
(* ===================================================================== *)

(** Modelled from the spec: the schemas of models/Post.js and models/User.js
    are not among the sources; the documents have the fields the spec lists
    and the handlers read.

    An element of [post.likes]: [{ user }]. *)
Record like := mkLike { like_user : string }.

(** An element of [post.comments]. *)
Record comment := mkComment {
  comment_id : string;
  comment_user : string;
  comment_name : string;
  comment_text : string;
  comment_avatar : string;
  comment_date : Z
}.

(** A Post document. *)
Record post := mkPost {
  post_id : string;
  post_text : string;
  post_name : string;
  post_avatar : string;
  post_user : string;
  post_date : Z;
  post_likes : list like;
  post_comments : list comment
}.

(** A User document; [select('-field')] drops a field from the result. *)
Record user := mkUser {
  user_id : string;
  user_name : string;
  user_avatar : string;
  user_email : option string;
  user_password : option string
}.

Definition like_eqb (a b : like) : bool :=
  String.eqb (like_user a) (like_user b).

Definition comment_eqb (a b : comment) : bool :=
  String.eqb (comment_id a) (comment_id b)
  && String.eqb (comment_user a) (comment_user b)
  && String.eqb (comment_name a) (comment_name b)
  && String.eqb (comment_text a) (comment_text b)
  && String.eqb (comment_avatar a) (comment_avatar b)
  && Z.eqb (comment_date a) (comment_date b).

Definition set_likes (p : post) (l : list like) : post :=
  mkPost (post_id p) (post_text p) (post_name p) (post_avatar p)
         (post_user p) (post_date p) l (post_comments p).

Definition set_comments (p : post) (c : list comment) : post :=
  mkPost (post_id p) (post_text p) (post_name p) (post_avatar p)
         (post_user p) (post_date p) (post_likes p) c.

(* ===================================================================== *)
(** * The request, the response and the world *)
(* ===================================================================== *)

(** What the handlers read of [req]: [req.user.id], the route parameters and
    [req.body.text] (absent: [None]). *)
Record request := mkRequest {
  req_user_id : string;
  param_postID : string;
  param_userID : string;
  param_comment_id : string;
  body_text : option string
}.

(** An entry of [errors.array()]. *)
Record validation_error := mkValidationError {
  ve_msg : string;
  ve_param : string
}.

Inductive payload :=
| Msg (msg : string)
| Errors (errors : list validation_error)
| PostDoc (p : post)
| PostDocs (ps : list post)
| Likes (l : list like)
| Comments (c : list comment)
| Text (s : string).

Record response := mkResponse {
  status : Z;
  body : payload
}.

(** The collections, the console, and what the outside decides: the time, the
    next generated ObjectId, and for each coming repository call whether it
    fails ([Some e]) or goes through ([None]; an exhausted list: no fault). *)
Record world := mkWorld {
  posts : list post;
  users : list user;
  faults : list (option Js.error);
  clock : Z;
  oid_seed : N;
  console : list string
}.

Record state := mkState {
  st_world : world;
  sent : option response
}.

(* ===================================================================== *)
(** * The handler monad *)
(* ===================================================================== *)

Inductive outcome (A : Type) :=
| Val (a : A)          (* the statement completed *)
| Ret                  (* [return ...;] left the handler *)
| Exc (e : Js.error).  (* an error was thrown *)

Arguments Val {A} a.
Arguments Ret {A}.
Arguments Exc {A} e.

Definition M (A : Type) := state -> outcome A * state.

Definition ret {A} (a : A) : M A := fun s => (Val a, s).

Definition bind {A B} (m : M A) (k : A -> M B) : M B :=
  fun s =>
    match m s with
    | (Val a, s') => k a s'
    | (Ret, s') => (Ret, s')
    | (Exc e, s') => (Exc e, s')
    end.

Notation "x <- m ;; k" := (bind m (fun x => k))
  (at level 61, m at next level, right associativity).
Notation "m ;; k" := (bind m (fun _ => k))
  (at level 61, right associativity).

Definition throw {A} (e : Js.error) : M A := fun s => (Exc e, s).

(** [return;] *)
Definition return_ {A} : M A := fun s => (Ret, s).

(** [try { body } catch (err) { handler }] *)
Definition try_catch {A} (body : M A) (handler : Js.error -> M A) : M A :=
  fun s =>
    match body s with
    | (Exc e, s') => handler e s'
    | r => r
    end.

Definition when (b : bool) (m : M unit) : M unit :=
  if b then m else ret tt.

(** [o.prop] and [o.method(...)]: a TypeError when [o] is [null]. *)
Definition deref {A} (o : option A) (prop : string) : M A :=
  match o with
  | Some a => ret a
  | None => throw (Js.null_deref prop)
  end.

Definition is_null {A} (o : option A) : bool :=
  match o with Some _ => false | None => true end.

Definition get_world : M world := fun s => (Val (st_world s), s).

Definition put_world (w : world) : M unit :=
  fun s => (Val tt, mkState w (sent s)).

(** [console.error(msg)] *)
Definition console_error (msg : string) : M unit :=
  w <- get_world ;;
  put_world (mkWorld (posts w) (users w) (faults w) (clock w) (oid_seed w)
                     (console w ++ [msg])).

(** [res.status(code).json(payload)] and [res.status(code).send(text)] *)
Definition res_status (code : Z) (b : payload) : M unit :=
  fun s =>
    match sent s with
    | None => (Val tt, mkState (st_world s) (Some (mkResponse code b)))
    | Some _ => (Exc Js.headers_sent, s)
    end.

(** [res.json(payload)]: status 200. *)
Definition res_json (b : payload) : M unit := res_status 200 b.

(** The outcome of a request: the response sent (if any), the world left
    behind, and the error that escaped the handler (if any). *)
Record result := mkResult {
  response_of : option response;
  world_of : world;
  uncaught : option Js.error
}.

Definition serve (handler : request -> M unit) (req : request) (w : world)
  : result :=
  let (o, s) := handler req (mkState w None) in
  mkResult (sent s) (st_world s)
           (match o with Exc e => Some e | _ => None end).

(* ===================================================================== *)
(** * The repository: Mongoose models over the collections *)
(* ===================================================================== *)

Module ObjectId.

Definition is_hex (c : ascii) : bool :=
  existsb (Ascii.eqb c) (list_ascii_of_string "0123456789abcdefABCDEF").

(** The canonical form of a hexadecimal digit is lower case. *)
Definition lower (c : ascii) : ascii :=
  if Ascii.eqb c "A" then "a" else if Ascii.eqb c "B" then "b"
  else if Ascii.eqb c "C" then "c" else if Ascii.eqb c "D" then "d"
  else if Ascii.eqb c "E" then "e" else if Ascii.eqb c "F" then "f"
  else c.

Fixpoint map_string (f : ascii -> ascii) (s : string) : string :=
  match s with
  | EmptyString => EmptyString
  | String c s' => String (f c) (map_string f s')
  end.

Definition hex_char (d : N) : ascii :=
  match String.get (N.to_nat d) "0123456789abcdef" with
  | Some c => c
  | None => "0"%char
  end.

(** The two hexadecimal digits of each byte of a string. *)
Fixpoint hex_of_bytes (s : string) : string :=
  match s with
  | EmptyString => EmptyString
  | String c s' =>
      String (hex_char (N_of_ascii c / 16)%N)
             (String (hex_char (N_of_ascii c mod 16)%N) (hex_of_bytes s'))
  end.

(** Casting a string to an ObjectId, as Mongoose does for a query and for a
    field of a document: a string of 24 hexadecimal digits is the id it
    writes, a string of 12 characters is the id made of its 12 bytes, and any
    other string is no ObjectId at all. The result is the canonical string of
    the id, the one [toString()] gives. *)
Definition cast (s : string) : option string :=
  if (String.length s =? 24)%nat
     && forallb is_hex (list_ascii_of_string s)
  then Some (map_string lower s)
  else if (String.length s =? 12)%nat
  then Some (hex_of_bytes s)
  else None.

Fixpoint hex_fixed (k : nat) (n : N) (acc : string) : string :=
  match k with
  | O => acc
  | S k' => hex_fixed k' (n / 16)%N (String (hex_char (n mod 16)%N) acc)
  end.

(** [new ObjectId()]: the next id the generator hands out. *)
Definition fresh : M string :=
  w <- get_world ;;
  put_world (mkWorld (posts w) (users w) (faults w) (clock w)
                     (oid_seed w + 1)%N (console w)) ;;
  ret (hex_fixed 24 (oid_seed w) "").

End ObjectId.

Arguments ObjectId.cast : simpl never.

(** Every call into the repository consumes the next entry of [faults] and
    fails with it when it is an error. *)
Definition repo_call : M unit :=
  w <- get_world ;;
  match faults w with
  | [] => ret tt
  | f :: rest =>
      put_world (mkWorld (posts w) (users w) rest (clock w) (oid_seed w)
                         (console w)) ;;
      match f with
      | Some e => throw e
      | None => ret tt
      end
  end.

(** A query by id casts its argument first: a malformed id fails the query
    before the repository is called. *)
Definition cast_id (id : string) : M string :=
  match ObjectId.cast id with
  | Some oid => ret oid
  | None => throw (Js.cast_error id)
  end.

Definition find_post (oid : string) (ps : list post) : option post :=
  find (fun p => String.eqb (post_id p) oid) ps.

Definition find_user (oid : string) (us : list user) : option user :=
  find (fun u => String.eqb (user_id u) oid) us.

(** Writing a document: it replaces the stored document of the same id, and
    is added to the collection when there is none. *)
Fixpoint upsert (p : post) (ps : list post) : list post :=
  match ps with
  | [] => [p]
  | q :: ps' =>
      if String.eqb (post_id q) (post_id p) then p :: ps'
      else q :: upsert p ps'
  end.

(** [sort({ date: -1 })]: most recent first. *)
Fixpoint insert_desc (p : post) (ps : list post) : list post :=
  match ps with
  | [] => [p]
  | q :: ps' =>
      if post_date q <=? post_date p then p :: q :: ps'
      else q :: insert_desc p ps'
  end.

Definition sort_date_desc (ps : list post) : list post :=
  fold_right insert_desc [] ps.

Module Post.

(** Modelled from the spec: the Post schema (models/Post.js), which is not
    among the sources. A new Post gets its id at creation, [date] defaults to
    the creation time, [likes] and [comments] start empty. *)
Definition new (text name avatar user : string) : M post :=
  id <- ObjectId.fresh ;;
  w <- get_world ;;
  ret (mkPost id text name avatar user (clock w) [] []).

(** [Post.findById(id)] *)
Definition findById (id : string) : M (option post) :=
  oid <- cast_id id ;;
  repo_call ;;
  w <- get_world ;;
  ret (find_post oid (posts w)).

(** [Post.find({}).sort({ date: -1 })] *)
Definition find_all_sorted : M (list post) :=
  repo_call ;;
  w <- get_world ;;
  ret (sort_date_desc (posts w)).

(** [Post.find({ user: id })] *)
Definition find_by_user (id : string) : M (list post) :=
  oid <- cast_id id ;;
  repo_call ;;
  w <- get_world ;;
  ret (filter (fun p => String.eqb (post_user p) oid) (posts w)).

(** [doc.save()], which gives the saved document. *)
Definition save (p : post) : M post :=
  repo_call ;;
  w <- get_world ;;
  put_world (mkWorld (upsert p (posts w)) (users w) (faults w) (clock w)
                     (oid_seed w) (console w)) ;;
  ret p.

(** [doc.remove()] *)
Definition remove (p : post) : M unit :=
  repo_call ;;
  w <- get_world ;;
  put_world (mkWorld
               (filter (fun q => negb (String.eqb (post_id q) (post_id p)))
                       (posts w))
               (users w) (faults w) (clock w) (oid_seed w) (console w)).

(** Modelled from the spec: the comment sub-schema of models/Post.js. An
    object pushed to [comments] becomes a Comment with an id of its own and
    [date] defaulting to the current time. *)
Definition new_comment (user name text avatar : string) : M comment :=
  id <- ObjectId.fresh ;;
  w <- get_world ;;
  ret (mkComment id user name text avatar (clock w)).

End Post.

Module User.

(** [select('-email')], [select('-password')] *)
Definition select_minus (fields : list string) (u : user) : user :=
  mkUser (user_id u) (user_name u) (user_avatar u)
         (if existsb (String.eqb "email") fields then None
          else user_email u)
         (if existsb (String.eqb "password") fields then None
          else user_password u).

(** [User.findById(id).select(fields)] *)
Definition findById_select (id : string) (fields : list string)
  : M (option user) :=
  oid <- cast_id id ;;
  repo_call ;;
  w <- get_world ;;
  ret (option_map (select_minus fields) (find_user oid (users w))).

(** [User.findById(id)] *)
Definition findById (id : string) : M (option user) :=
  findById_select id [].

End User.

(** [check('text', msg).not().isEmpty()] followed by
    [validationResult(req)]: the violations, as [errors.array()] lists them. An
    absent field is validated as the empty string. *)
Definition check_text_not_empty (msg : string) (req : request)
  : list validation_error :=
  match body_text req with
  | Some t => if String.eqb t "" then [mkValidationError msg "text"] else []
  | None => [mkValidationError msg "text"]
  end.

(** [errors.isEmpty()] *)
Definition isEmpty (errors : list validation_error) : bool :=
  match errors with [] => true | _ => false end.

(** [req.body.text] where a string is expected. *)
Definition req_body_text (req : request) : string :=
  match body_text req with Some t => t | None => "" end.

(* ===================================================================== *)
(** * The handlers of routes/api/post.js *)
(* ===================================================================== *)

(** The [catch] clause of the handlers that answer every error with a 500. In
    [POST /] and [GET /] the clause ends with [return]. *)
Definition server_error_return (err : Js.error) : M unit :=
  console_error (Js.err_message err) ;;
  res_status 500 (Text "Server Error") ;;
  return_.

Definition server_error (err : Js.error) : M unit :=
  console_error (Js.err_message err) ;;
  res_status 500 (Text "Server Error").

(** The [catch] clause of [GET /myposts/:userID] and
    [DELETE /myposts/:postID]: it has no [else]. *)
Definition post_not_found (err : Js.error) : M unit :=
  when (Js.kind_is err "ObjectId")
       (console_error (Js.err_message err) ;;
        res_status 404 (Msg "Post not found") ;;
        return_).

(** ** POST / *)

Definition create_post_body (req : request) : M unit :=
  user <- User.findById_select (req_user_id req) ["password"] ;;
  u <- deref user "name" ;;
  newPost <- Post.new (req_body_text req) (user_name u) (user_avatar u)
                      (req_user_id req) ;;
  post <- Post.save newPost ;;
  res_json (PostDoc post).

Definition create_post (req : request) : M unit :=
  let errors :=
    check_text_not_empty "Text is required to create a post." req in
  when (negb (isEmpty errors))
       (res_status 400 (Errors errors) ;; return_) ;;
  try_catch (create_post_body req) server_error_return.

(** ** GET / *)

Definition list_posts_body (req : request) : M unit :=
  posts <- Post.find_all_sorted ;;
  res_json (PostDocs posts).

Definition list_posts (req : request) : M unit :=
  try_catch (list_posts_body req) server_error_return.

(** ** GET /myposts/:userID *)

Definition my_posts_body (req : request) : M unit :=
  myPosts <- Post.find_by_user (param_userID req) ;;
  (* [!myPosts]: an array, even an empty one, is truthy *)
  when (negb true)
       (res_status 404 (Msg "Post not found") ;; return_) ;;
  res_json (PostDocs myPosts).

Definition my_posts (req : request) : M unit :=
  try_catch (my_posts_body req) post_not_found.

(** ** DELETE /myposts/:postID *)

Definition delete_post_body (req : request) : M unit :=
  post <- Post.findById (param_postID req) ;;
  (* Check user *)
  p <- deref post "user" ;;
  when (negb (String.eqb (post_user p) (req_user_id req)))
       (res_status 401 (Msg "User not authorized") ;; return_) ;;
  (* Check post *)
  when (is_null post)
       (res_status 404 (Msg "Post not found") ;; return_) ;;
  Post.remove p ;;
  res_json (Msg "Post removed").

Definition delete_post (req : request) : M unit :=
  try_catch (delete_post_body req) post_not_found.

(** ** PUT /like/:postID *)

Definition like_body (req : request) : M unit :=
  post <- Post.findById (param_postID req) ;;
  (* Check if post liked by user *)
  let verifyLike (l : like) := String.eqb (like_user l) (req_user_id req) in
  p <- deref post "likes" ;;
  when (0 <? Z.of_nat (List.length (filter verifyLike (post_likes p))))
       (res_status 400 (Msg "Post already liked") ;; return_) ;;
  let p := set_likes p (Js.unshift (mkLike (req_user_id req)) (post_likes p)) in
  Post.save p ;;
  res_json (Likes (post_likes p)).

Definition like_post (req : request) : M unit :=
  try_catch (like_body req) server_error.

(** ** PUT /unlike/:postID *)

Definition unlike_body (req : request) : M unit :=
  post <- Post.findById (param_postID req) ;;
  p <- deref post "likes" ;;
  (* Check if post liked by user *)
  when (Z.of_nat
          (List.length
             (filter (fun l => String.eqb (like_user l) (req_user_id req))
                     (post_likes p))) =? 0)
       (res_status 400
          (Msg "You must, first, like the post before you can remove it") ;;
        return_) ;;
  (* Remove user post like *)
  let userLike :=
    find (fun likedId => Js.truthy (req_user_id req)) (post_likes p) in
  let likeIndex := Js.indexOf like_eqb (post_likes p) userLike in
  let p := set_likes p (Js.splice likeIndex 1 (post_likes p)) in
  Post.save p ;;
  res_json (Likes (post_likes p)).

Definition unlike_post (req : request) : M unit :=
  try_catch (unlike_body req) server_error.

(** ** POST /comment/:postID *)

Definition add_comment_body (req : request) : M unit :=
  post <- Post.findById (param_postID req) ;;
  user <- User.findById_select (req_user_id req) ["email"; "password"] ;;
  (* Build Comments object *)
  u <- deref user "name" ;;
  p <- deref post "comments" ;;
  newComment <- Post.new_comment (req_user_id req) (user_name u)
                                 (req_body_text req) (user_avatar u) ;;
  let p := set_comments p (Js.unshift newComment (post_comments p)) in
  Post.save p ;;
  res_json (Comments (post_comments p)).

Definition add_comment (req : request) : M unit :=
  let errors := check_text_not_empty "Text is required" req in
  when (negb (isEmpty errors))
       (res_status 400 (Errors errors) ;; return_) ;;
  try_catch (add_comment_body req) server_error.

(** ** DELETE /delete_comment/:postID/:comment_id *)

(** [postID] in the [catch] clause: the name is bound neither in the handler
    (the route parameter is [req.params.postID]) nor at module level
    ([mongoose], [auth], [express], [router], [check], [validationResult],
    [User], [Post], [Profile]), so reading it throws. *)
Definition postID : M (option string) := throw (Js.not_defined "postID").

Definition delete_comment_catch (err : Js.error) : M unit :=
  c <- (if Js.kind_is err "ObjectId" then ret true
        else (v <- postID ;;
              ret (match Js.err_value err, v with
                   | Some a, Some b => String.eqb a b
                   | None, None => true
                   | _, _ => false
                   end))) ;;
  if c : bool then
    console_error (Js.err_message err) ;;
    res_status 404 (Msg "Comment does not exist")
  else
    console_error (Js.err_message err) ;;
    res_status 500 (Text "Server Error").

Definition delete_comment_body (req : request) : M unit :=
  (* Pull comment and post. *)
  post <- Post.findById (param_postID req) ;;
  let commentId := param_comment_id req in
  p <- deref post "comments" ;;
  let userComment :=
    find (fun c => String.eqb (comment_id c) commentId) (post_comments p) in
  user <- User.findById (req_user_id req) ;;
  (* Check if comment exists *)
  when (is_null userComment)
       (res_status 404 (Msg "Comment does not exist") ;; return_) ;;
  let ownerOfPost := post_user p in
  c <- deref userComment "user" ;;
  let ownerOfComment := comment_user c in
  (* Only the owner of the post and owner of comment should have ability
     to delete a comment *)
  u <- deref user "id" ;;
  when (negb (String.eqb ownerOfPost (user_id u))
        && negb (String.eqb ownerOfComment (req_user_id req)))
       (res_status 401 (Msg "User not authorized") ;; return_) ;;
  let commentIndex :=
    Js.indexOf comment_eqb (map (fun c => c) (post_comments p)) userComment in
  let p := set_comments p (Js.splice commentIndex 1 (post_comments p)) in
  Post.save p ;;
  res_json (Comments (post_comments p)).

Definition delete_comment (req : request) : M unit :=
  try_catch (delete_comment_body req) delete_comment_catch.

(** The routes of the file. *)
Inductive route :=
| CreatePost | ListPosts | MyPosts | DeletePost
| LikePost | UnlikePost | AddComment | DeleteComment.

Definition handler_of (r : route) : request -> M unit :=
  match r with
  | CreatePost => create_post
  | ListPosts => list_posts
  | MyPosts => my_posts
  | DeletePost => delete_post
  | LikePost => like_post
  | UnlikePost => unlike_post
  | AddComment => add_comment
  | DeleteComment => delete_comment
  end.

(** The body of the [try] block of a route and its [catch] clause. *)
Definition try_block_of (r : route) : request -> M unit :=
  match r with
  | CreatePost => create_post_body
  | ListPosts => list_posts_body
  | MyPosts => my_posts_body
  | DeletePost => delete_post_body
  | LikePost => like_body
  | UnlikePost => unlike_body
  | AddComment => add_comment_body
  | DeleteComment => delete_comment_body
  end.

Definition catch_of (r : route) : Js.error -> M unit :=
  match r with
  | CreatePost | ListPosts => server_error_return
  | MyPosts | DeletePost => post_not_found
  | LikePost | UnlikePost | AddComment => server_error
  | DeleteComment => delete_comment_catch
  end.

(* ===================================================================== *)
(** * Vocabulary of the properties *)
(* ===================================================================== *)

Definition with_posts (w : world) (ps : list post) : world :=
  mkWorld ps (users w) (faults w) (clock w) (oid_seed w) (console w).

Definition status_of (r : result) : option Z :=
  option_map status (response_of r).

(** The test both handlers make: some like of the post carries the id. *)
Definition liked_by (uid : string) (p : post) : bool :=
  existsb (fun l => String.eqb (like_user l) uid) (post_likes p).

(** What [PUT /unlike] does to a post the user likes: the array after
    [splice(likeIndex, 1)]. *)
Definition unliked (uid : string) (likes : list like) : list like :=
  Js.splice
    (Js.indexOf like_eqb likes (find (fun _ => Js.truthy uid) likes))
    1 likes.

Definition likes_unique (p : post) : Prop :=
  NoDup (map like_user (post_likes p)).

(** [a] may come before [b] in a list sorted by date, most recent first. *)
Definition newer_first (a b : post) : Prop := post_date b <= post_date a.

(** The request gets past the validation chain of the route. *)
Definition passes_validation (r : route) (req : request) : Prop :=
  match r with
  | CreatePost =>
      check_text_not_empty "Text is required to create a post." req = []
  | AddComment => check_text_not_empty "Text is required" req = []
  | _ => True
  end.

(** The routes whose [catch] clause answers every error with a 500. *)
Definition answers_500 (r : route) : bool :=
  match r with
  | CreatePost | ListPosts | LikePost | UnlikePost | AddComment => true
  | MyPosts | DeletePost | DeleteComment => false
  end.

(** The 404 of the routes whose [catch] clause looks at [err.kind]. *)
Definition not_found_of (r : route) : response :=
  match r with
  | DeleteComment => mkResponse 404 (Msg "Comment does not exist")
  | _ => mkResponse 404 (Msg "Post not found")
  end.

Definition server_error_response : response :=
  mkResponse 500 (Text "Server Error").

(** One policy for all routes: an error thrown in the [try] block is
    answered 404 when it is a malformed-identifier fault and 500 otherwise. *)
Definition uniform_fault_policy : Prop :=
  forall (r : route) (req : request) (w : world) (e : Js.error) (s' : state),
    passes_validation r req ->
    try_block_of r req (mkState w None) = (Exc e, s') ->
    response_of (serve (handler_of r) req w) =
      Some (if Js.kind_is e "ObjectId" then not_found_of r
            else server_error_response).


(** The routes that rewrite a stored post. *)
Definition edits_post (r : route) : bool :=
  match r with
  | LikePost | UnlikePost | AddComment | DeleteComment => true
  | _ => false
  end.

(** Two versions of a post that differ at most in their likes and their
    comments. *)
Definition same_core (p q : post) : Prop :=
  post_id p = post_id q /\ post_user p = post_user q /\
  post_text p = post_text q /\ post_name p = post_name q /\
  post_avatar p = post_avatar q /\ post_date p = post_date q.


(** ** Sample data *)

Module Sample.

Definition alice_id := "aaaaaaaaaaaaaaaaaaaaaaaa".
Definition bob_id := "bbbbbbbbbbbbbbbbbbbbbbbb".
Definition carol_id := "cccccccccccccccccccccccc".
Definition post1_id := "111111111111111111111111".
Definition post2_id := "222222222222222222222222".
Definition comment1_id := "c1c1c1c1c1c1c1c1c1c1c1c1".
Definition missing_id := "999999999999999999999999".

Definition alice :=
  mkUser alice_id "Alice" "alice.png" (Some "alice@example.org") (Some "pw-a").
Definition bob :=
  mkUser bob_id "Bob" "bob.png" (Some "bob@example.org") (Some "pw-b").
Definition carol :=
  mkUser carol_id "Carol" "carol.png" (Some "carol@example.org") (Some "pw-c").

Definition comment1 :=
  mkComment comment1_id bob_id "Bob" "nice" "bob.png" 150.

(** Carol's post: Bob liked it first, Alice after him; Bob commented. *)
Definition post1 :=
  mkPost post1_id "hello" "Carol" "carol.png" carol_id 100
         [mkLike alice_id; mkLike bob_id] [comment1].

(** Bob's later post, nobody liked it yet. *)
Definition post2 :=
  mkPost post2_id "later" "Bob" "bob.png" bob_id 200 [] [].

Definition w0 : world :=
  mkWorld [post1; post2] [alice; bob; carol] [] 1000 0 [].

(** A request by [uid] on the post [pid]. *)
Definition on_post (uid pid : string) : request :=
  mkRequest uid pid "" "" None.

End Sample.

(* ===================================================================== *)
(** * Properties *)
(* ===================================================================== *)

Ltac unfold_handlers :=
  unfold serve, create_post, list_posts, my_posts, delete_post, like_post,
    unlike_post, add_comment, delete_comment,
    create_post_body, list_posts_body, my_posts_body, delete_post_body,
    like_body, unlike_body, add_comment_body, delete_comment_body,
    server_error, server_error_return, post_not_found, delete_comment_catch,
    postID, Post.findById, Post.find_all_sorted, Post.find_by_user, Post.save,
    Post.remove, Post.new, Post.new_comment, User.findById,
    User.findById_select, ObjectId.fresh, repo_call, cast_id, console_error,
    res_json, res_status, try_catch, when, deref, bind, ret, throw, return_,
    get_world, put_world in *.

Ltac break_inner H :=
  match type of H with
  | context [match ?x with _ => _ end] =>
      lazymatch x with
      | context [match _ with _ => _ end] => fail
      | _ => destruct x eqn:?; simpl in H
      end
  end.

(** ** The monad *)

Lemma bind_ret_l {A B} (a : A) (k : A -> M B) (s : state) :
  (x <- ret a ;; k x) s = k a s.
Proof. reflexivity. Qed.

Lemma bind_ret_r {A} (m : M A) (s : state) :
  (x <- m ;; ret x) s = m s.
Proof. unfold bind, ret. now destruct (m s) as [[a| |e] s']. Qed.

Lemma bind_assoc {A B C} (m : M A) (k : A -> M B) (h : B -> M C)
      (s : state) :
  (y <- (x <- m ;; k x) ;; h y) s = (x <- m ;; y <- k x ;; h y) s.
Proof. unfold bind. now destruct (m s) as [[a| |e] s']. Qed.

(** An early [return] and a thrown error skip the rest of the block; only
    the error reaches the [catch] clause. *)
Lemma try_catch_return {A} (body : M A) (h : Js.error -> M A)
      (s s' : state) :
  body s = (Ret, s') -> try_catch body h s = (Ret, s').
Proof. unfold try_catch. now intros ->. Qed.

Lemma try_catch_throw {A} (body : M A) (h : Js.error -> M A)
      (s s' : state) (e : Js.error) :
  body s = (Exc e, s') -> try_catch body h s = h e s'.
Proof. unfold try_catch. now intros ->. Qed.

(** ** Arrays *)

Lemma filter_length_pos {A} (f : A -> bool) (l : list A) :
  (0 <? Z.of_nat (List.length (filter f l))) = existsb f l.
Proof.
  induction l as [|x l IH]; simpl; [reflexivity|].
  destruct (f x); simpl; [|exact IH].
  apply Z.ltb_lt. lia.
Qed.

Lemma filter_length_zero {A} (f : A -> bool) (l : list A) :
  (Z.of_nat (List.length (filter f l)) =? 0) = negb (existsb f l).
Proof.
  rewrite <- filter_length_pos.
  destruct (Z.ltb_spec 0 (Z.of_nat (List.length (filter f l))));
    destruct (Z.eqb_spec (Z.of_nat (List.length (filter f l))) 0);
    simpl; try reflexivity; lia.
Qed.

(** [find] with a predicate that ignores its argument gives the first
    element when the constant is truthy and [undefined] otherwise. *)
Lemma find_const {A} (b : bool) (l : list A) :
  find (fun _ => b) l = if b then hd_error l else None.
Proof.
  destruct b; destruct l as [|x l]; simpl; try reflexivity.
  induction l; simpl; auto.
Qed.


Lemma splice_remove_nth {A} (n : nat) (l : list A) :
  (n < List.length l)%nat ->
  Js.splice (Z.of_nat n) 1 l = firstn n l ++ skipn (S n) l.
Proof.
  intros Hn. unfold Js.splice.
  destruct (Z.ltb_spec (Z.of_nat n) 0); [lia|].
  rewrite Z.min_l by lia.
  rewrite (Z.max_l 1 0) by lia. rewrite Z.min_l by lia.
  rewrite Nat2Z.id. replace (Z.to_nat (Z.of_nat n + 1)) with (S n) by lia.
  reflexivity.
Qed.

Lemma splice_head {A} (x : A) (l : list A) :
  Js.splice 0 1 (x :: l) = l.
Proof. apply (splice_remove_nth 0 (x :: l)). simpl. lia. Qed.

(** Whatever its arguments, [splice(start, 1)] leaves the elements before
    some position followed by the elements from a later position on. *)
Lemma splice_shape {A} (start count : Z) (l : list A) :
  exists a b : nat, (a <= b)%nat /\
    Js.splice start count l = firstn a l ++ skipn b l.
Proof.
  unfold Js.splice.
  set (len := Z.of_nat (List.length l)).
  set (from := if start <? 0 then Z.max (len + start) 0 else Z.min start len).
  set (cnt := Z.min (Z.max count 0) (len - from)).
  assert (0 <= from <= len).
  { unfold from. destruct (start <? 0) eqn:E; [|apply Z.ltb_ge in E]; lia. }
  exists (Z.to_nat from), (Z.to_nat (from + cnt)). split; [|reflexivity].
  unfold cnt. lia.
Qed.

Lemma NoDup_skipn {A} (n : nat) (l : list A) : NoDup l -> NoDup (skipn n l).
Proof.
  revert l; induction n as [|n IH]; intros l H; simpl; [exact H|].
  destruct l as [|x l]; [exact H|]. apply IH. now inversion H.
Qed.

Lemma In_skipn {A} (n : nat) (l : list A) (x : A) :
  In x (skipn n l) -> In x l.
Proof.
  revert l; induction n as [|n IH]; intros l H; simpl in *; [exact H|].
  destruct l as [|y l]; [exact H|]. right. now apply IH.
Qed.

Lemma NoDup_firstn_skipn {A} (a b : nat) (l : list A) :
  (a <= b)%nat -> NoDup l -> NoDup (firstn a l ++ skipn b l).
Proof.
  revert b l; induction a as [|a IH]; intros b l Hab H.
  - simpl. now apply NoDup_skipn.
  - destruct l as [|x l]; simpl.
    + rewrite skipn_nil. constructor.
    + destruct b as [|b]; [lia|]. simpl.
      inversion H as [|? ? Hx Hl]; subst. constructor.
      * intros Hin. apply in_app_or in Hin. destruct Hin as [Hin|Hin].
        -- apply Hx. rewrite <- (firstn_skipn a l). apply in_or_app. now left.
        -- apply Hx. now apply (In_skipn b).
      * apply IH; [lia | exact Hl].
Qed.

Lemma map_firstn_skipn {A B} (f : A -> B) (a b : nat) (l : list A) :
  map f (firstn a l ++ skipn b l) = firstn a (map f l) ++ skipn b (map f l).
Proof. now rewrite map_app, firstn_map, skipn_map. Qed.

(** ** The collection of posts *)

Lemma find_post_id (oid : string) (ps : list post) (p : post) :
  find_post oid ps = Some p -> post_id p = oid.
Proof.
  intros H. apply find_some in H. destruct H as [_ H].
  now apply String.eqb_eq.
Qed.

Lemma find_post_In (oid : string) (ps : list post) (p : post) :
  find_post oid ps = Some p -> In p ps.
Proof. intros H. now apply find_some in H. Qed.

Lemma find_post_upsert (p : post) (ps : list post) :
  find_post (post_id p) (upsert p ps) = Some p.
Proof.
  unfold find_post.
  induction ps as [|q ps IH]; simpl.
  - now rewrite String.eqb_refl.
  - destruct (String.eqb (post_id q) (post_id p)) eqn:E; simpl.
    + now rewrite String.eqb_refl.
    + now rewrite E.
Qed.

Lemma upsert_upsert (p p' : post) (ps : list post) :
  post_id p = post_id p' -> upsert p (upsert p' ps) = upsert p ps.
Proof.
  intros Hid. induction ps as [|q ps IH]; simpl.
  - rewrite <- Hid, String.eqb_refl. reflexivity.
  - rewrite <- Hid. destruct (String.eqb (post_id q) (post_id p)) eqn:E; simpl.
    + rewrite <- Hid, String.eqb_refl. reflexivity.
    + rewrite E. f_equal. exact IH.
Qed.

Lemma upsert_found (p : post) (ps : list post) :
  find_post (post_id p) ps = Some p -> upsert p ps = ps.
Proof.
  unfold find_post. induction ps as [|q ps IH]; simpl; [discriminate|].
  destruct (String.eqb (post_id q) (post_id p)) eqn:E.
  - now intros [= ->].
  - intros H. f_equal. now apply IH.
Qed.

Lemma Forall_upsert (P : post -> Prop) (p : post) (ps : list post) :
  P p -> Forall P ps -> Forall P (upsert p ps).
Proof.
  intros Hp H. induction H as [|q ps Hq Hps IH]; simpl.
  - now constructor.
  - destruct (String.eqb (post_id q) (post_id p)); now constructor.
Qed.

(** ** Like and unlike, step by step *)

Section OnStoredPost.

(** A request on a post that exists, in a world where no repository call
    fails. *)
Variables (req : request) (w : world) (oid : string) (p : post).
Hypothesis no_fault : faults w = [].
Hypothesis well_formed : ObjectId.cast (param_postID req) = Some oid.
Hypothesis stored : find_post oid (posts w) = Some p.

Lemma like_fresh :
  liked_by (req_user_id req) p = false ->
  serve like_post req w =
    let likes := mkLike (req_user_id req) :: post_likes p in
    mkResult (Some (mkResponse 200 (Likes likes)))
             (with_posts w (upsert (set_likes p likes) (posts w)))
             None.
Proof.
  intros Hl. unfold liked_by in Hl.
  unfold_handlers. simpl. rewrite well_formed. simpl. rewrite no_fault. simpl.
  rewrite stored. simpl. rewrite filter_length_pos, Hl. simpl.
  rewrite no_fault. simpl. unfold with_posts. rewrite no_fault. reflexivity.
Qed.

Lemma like_already_liked :
  liked_by (req_user_id req) p = true ->
  serve like_post req w =
    mkResult (Some (mkResponse 400 (Msg "Post already liked"))) w None.
Proof.
  intros Hl. unfold liked_by in Hl.
  unfold_handlers. simpl. rewrite well_formed. simpl. rewrite no_fault. simpl.
  rewrite stored. simpl. rewrite filter_length_pos, Hl. reflexivity.
Qed.

Lemma unlike_liked :
  liked_by (req_user_id req) p = true ->
  serve unlike_post req w =
    let likes := unliked (req_user_id req) (post_likes p) in
    mkResult (Some (mkResponse 200 (Likes likes)))
             (with_posts w (upsert (set_likes p likes) (posts w)))
             None.
Proof.
  intros Hl. unfold liked_by in Hl.
  unfold_handlers. simpl. rewrite well_formed. simpl. rewrite no_fault. simpl.
  rewrite stored. simpl. rewrite filter_length_zero, Hl. simpl.
  rewrite no_fault. simpl. unfold with_posts, unliked. rewrite no_fault.
  reflexivity.
Qed.

(** Unliking a post one has not liked: 400, and nothing changes. *)
Lemma unlike_not_liked :
  liked_by (req_user_id req) p = false ->
  serve unlike_post req w =
    mkResult
      (Some (mkResponse 400
         (Msg "You must, first, like the post before you can remove it")))
      w None.
Proof.
  intros Hl. unfold liked_by in Hl.
  unfold_handlers. simpl. rewrite well_formed. simpl. rewrite no_fault. simpl.
  rewrite stored. simpl. rewrite filter_length_zero, Hl. reflexivity.
Qed.

End OnStoredPost.

(** With a non-empty [req.user.id] the callback of [find] accepts every
    element, so the like that goes is the one at index 0, whoever it belongs
    to. *)
Lemma unliked_head (uid : string) (l : like) (likes : list like) :
  uid <> "" -> unliked uid (l :: likes) = likes.
Proof.
  intros Hu. unfold unliked. rewrite find_const.
  assert (Js.truthy uid = true) as ->.
  { unfold Js.truthy. destruct (String.eqb_spec uid ""); [contradiction|].
    reflexivity. }
  simpl. unfold like_eqb. rewrite String.eqb_refl. apply splice_head.
Qed.

Lemma unlike_removes_head (req : request) (w : world) (oid : string)
      (p : post) (l : like) (likes : list like) :
  faults w = [] ->
  ObjectId.cast (param_postID req) = Some oid ->
  find_post oid (posts w) = Some p ->
  post_likes p = l :: likes ->
  liked_by (req_user_id req) p = true ->
  req_user_id req <> "" ->
  response_of (serve unlike_post req w) =
    Some (mkResponse 200 (Likes likes)).
Proof.
  intros Hf Hc Hp Hlikes Hl Hu.
  rewrite (unlike_liked req w oid p Hf Hc Hp Hl). simpl.
  now rewrite Hlikes, unliked_head.
Qed.

Lemma like_post_inv (req : request) (w : world) :
  let r := serve like_post req w in
  (status_of r = Some 200 /\
   exists oid p,
     ObjectId.cast (param_postID req) = Some oid /\
     find_post oid (posts w) = Some p /\
     liked_by (req_user_id req) p = false /\
     posts (world_of r) =
       upsert (set_likes p (mkLike (req_user_id req) :: post_likes p))
              (posts w))
  \/ (status_of r <> Some 200 /\ posts (world_of r) = posts w).
Proof.
  destruct w as [ps us fs ck seed con].
  unfold status_of, liked_by. unfold_handlers. simpl.
  destruct fs as [|[e|] fs]; simpl;
    try (right; split; [discriminate|reflexivity]).
  all: destruct (ObjectId.cast (param_postID req)) as [oid|] eqn:Hc; simpl;
    try (right; split; [discriminate|reflexivity]).
  all: destruct (find_post oid ps) as [p|] eqn:Hp; simpl;
    try (right; split; [discriminate|reflexivity]).
  all: rewrite filter_length_pos.
  all: destruct (existsb _ (post_likes p)) eqn:Hl; simpl;
    try (right; split; [discriminate|reflexivity]).
  2: destruct fs as [|[e|] fs]; simpl;
    try (right; split; [discriminate|reflexivity]).
  all: left; split; [reflexivity|]; exists oid, p; auto.
Qed.

Lemma unlike_post_inv (req : request) (w : world) :
  let r := serve unlike_post req w in
  (exists oid p,
     find_post oid (posts w) = Some p /\
     posts (world_of r) =
       upsert (set_likes p (unliked (req_user_id req) (post_likes p)))
              (posts w))
  \/ posts (world_of r) = posts w.
Proof.
  destruct w as [ps us fs ck seed con].
  unfold unliked. unfold_handlers. simpl.
  destruct fs as [|[e|] fs]; simpl; try (right; reflexivity).
  all: destruct (ObjectId.cast (param_postID req)) as [oid|] eqn:Hc; simpl;
    try (right; reflexivity).
  all: destruct (find_post oid ps) as [p|] eqn:Hp; simpl;
    try (right; reflexivity).
  all: rewrite filter_length_zero.
  all: destruct (existsb _ (post_likes p)) eqn:Hl; simpl;
    try (right; reflexivity).
  2: destruct fs as [|[e|] fs]; simpl; try (right; reflexivity).
  all: left; exists oid, p; auto.
Qed.

(** ** Likes *)

Lemma not_liked_not_in (uid : string) (likes : list like) :
  existsb (fun l => String.eqb (like_user l) uid) likes = false ->
  ~ In uid (map like_user likes).
Proof.
  intros H Hin. apply in_map_iff in Hin. destruct Hin as (l & Hl & Hin).
  assert (existsb (fun l => String.eqb (like_user l) uid) likes = true).
  { apply existsb_exists. exists l. split; [exact Hin|].
    rewrite Hl. apply String.eqb_refl. }
  congruence.
Qed.

Lemma unliked_unique (uid : string) (likes : list like) :
  NoDup (map like_user likes) -> NoDup (map like_user (unliked uid likes)).
Proof.
  intros H. unfold unliked.
  destruct (splice_shape
              (Js.indexOf like_eqb likes (find (fun _ => Js.truthy uid) likes))
              1 likes) as (a & b & Hab & ->).
  rewrite map_firstn_skipn. now apply NoDup_firstn_skipn.
Qed.

(** C1. [PUT /unlike/:postID] by a user who likes the post is claimed to
    remove that user's like and to keep the likes of the others. Here Bob
    unlikes a post that Alice liked after him: Alice's like is the one that
    goes, and Bob's stays. *)
Theorem unlike_removes_first_like_not_own :
  serve unlike_post (Sample.on_post Sample.bob_id Sample.post1_id) Sample.w0 =
    mkResult
      (Some (mkResponse 200 (Likes [mkLike Sample.bob_id])))
      (with_posts Sample.w0
         [set_likes Sample.post1 [mkLike Sample.bob_id]; Sample.post2])
      None.
Proof. vm_compute. reflexivity. Qed.

(** C4. A user who has not liked a post likes it and then unlikes it, no
    repository call failing: both requests answer 200, the second one with the
    likes as they were before the first, and the stored post (the whole world,
    in fact) is back in its state before the like. *)
Theorem like_then_unlike_restores (req : request) (w : world) (oid : string)
        (p : post) :
  faults w = [] ->
  ObjectId.cast (param_postID req) = Some oid ->
  find_post oid (posts w) = Some p ->
  liked_by (req_user_id req) p = false ->
  req_user_id req <> "" ->
  let r1 := serve like_post req w in
  let r2 := serve unlike_post req (world_of r1) in
  response_of r1 =
    Some (mkResponse 200 (Likes (mkLike (req_user_id req) :: post_likes p))) /\
  response_of r2 = Some (mkResponse 200 (Likes (post_likes p))) /\
  find_post oid (posts (world_of r2)) = Some p /\
  world_of r2 = w.
Proof.
  intros Hf Hc Hp Hl Hu r1 r2.
  pose proof (find_post_id _ _ _ Hp) as Hid.
  assert (E1 : r1 = _) by (exact (like_fresh req w oid p Hf Hc Hp Hl)).
  simpl in E1.
  set (p1 := set_likes p (mkLike (req_user_id req) :: post_likes p)) in *.
  assert (Hp1 : find_post oid (posts (world_of r1)) = Some p1).
  { rewrite E1. simpl. rewrite <- Hid. apply (find_post_upsert p1). }
  assert (Hl1 : liked_by (req_user_id req) p1 = true).
  { unfold liked_by, p1. simpl. now rewrite String.eqb_refl. }
  assert (Hf1 : faults (world_of r1) = []) by (rewrite E1; exact Hf).
  assert (E2 : r2 = _)
    by (exact (unlike_liked req (world_of r1) oid p1 Hf1 Hc Hp1 Hl1)).
  simpl in E2.
  replace (post_likes p1) with (mkLike (req_user_id req) :: post_likes p)
    in E2 by reflexivity.
  rewrite (unliked_head _ _ _ Hu) in E2.
  assert (Hposts : upsert (set_likes p1 (post_likes p)) (posts (world_of r1))
                   = posts w).
  { rewrite E1. simpl. rewrite upsert_upsert by reflexivity.
    unfold p1. simpl.
    replace (set_likes (set_likes p _) (post_likes p)) with p
      by (now destruct p).
    apply upsert_found. now rewrite Hid. }
  rewrite Hposts in E2.
  assert (Hw : with_posts (world_of r1) (posts w) = w).
  { rewrite E1. now destruct w. }
  rewrite Hw in E2.
  rewrite E1, E2. simpl. auto.
Qed.

Lemma like_then_unlike_restores_witness :
  let req := Sample.on_post Sample.alice_id Sample.post2_id in
  response_of (serve like_post req Sample.w0) =
    Some (mkResponse 200 (Likes [mkLike Sample.alice_id])) /\
  response_of
    (serve unlike_post req (world_of (serve like_post req Sample.w0))) =
    Some (mkResponse 200 (Likes [])) /\
  find_post Sample.post2_id
    (posts (world_of
       (serve unlike_post req (world_of (serve like_post req Sample.w0))))) =
    Some Sample.post2 /\
  world_of (serve unlike_post req (world_of (serve like_post req Sample.w0)))
    = Sample.w0.
Proof.
  apply (like_then_unlike_restores
           (Sample.on_post Sample.alice_id Sample.post2_id) Sample.w0
           Sample.post2_id Sample.post2).
  - reflexivity.
  - reflexivity.
  - reflexivity.
  - reflexivity.
  - discriminate.
Defined.

(** C5. When every stored post has at most one like per user id, it is
    still so after a like request and after an unlike request, whatever the
    request and whether or not a repository call fails on the way. *)
Theorem like_unlike_keep_likes_unique (req : request) (w : world) :
  Forall likes_unique (posts w) ->
  Forall likes_unique (posts (world_of (serve like_post req w))) /\
  Forall likes_unique (posts (world_of (serve unlike_post req w))).
Proof.
  intros H. split.
  - destruct (like_post_inv req w)
      as [(_ & oid & p & _ & Hp & Hl & ->) | (_ & ->)]; [|exact H].
    apply Forall_upsert; [|exact H].
    unfold likes_unique. simpl. constructor.
    + now apply not_liked_not_in.
    + apply find_post_In in Hp.
      exact (proj1 (Forall_forall _ _) H p Hp).
  - destruct (unlike_post_inv req w) as [(oid & p & Hp & ->) | ->]; [|exact H].
    apply Forall_upsert; [|exact H].
    unfold likes_unique. simpl. apply unliked_unique.
    apply find_post_In in Hp.
    exact (proj1 (Forall_forall _ _) H p Hp).
Qed.

Lemma sample_likes_unique : Forall likes_unique (posts Sample.w0).
Proof.
  repeat constructor; simpl; intros H;
    repeat (destruct H as [H|H]; [discriminate|]); exact H.
Defined.

Lemma like_unlike_keep_likes_unique_witness :
  let req := Sample.on_post Sample.carol_id Sample.post1_id in
  Forall likes_unique (posts (world_of (serve like_post req Sample.w0))) /\
  Forall likes_unique (posts (world_of (serve unlike_post req Sample.w0))).
Proof.
  apply (like_unlike_keep_likes_unique
           (Sample.on_post Sample.carol_id Sample.post1_id) Sample.w0).
  exact sample_likes_unique.
Defined.

(** C6. After a like request of a user went through (status 200), a second
    like request of the same user on the same post, no repository call
    failing, is answered 400 "Post already liked" and changes nothing: the
    likes of the post, and so their number, are what they were. *)
Theorem second_like_rejected (req : request) (w : world) :
  let r1 := serve like_post req w in
  status_of r1 = Some 200 ->
  faults (world_of r1) = [] ->
  let r2 := serve like_post req (world_of r1) in
  r2 = mkResult (Some (mkResponse 400 (Msg "Post already liked")))
                (world_of r1) None /\
  forall oid,
    option_map (fun p => List.length (post_likes p))
               (find_post oid (posts (world_of r2))) =
    option_map (fun p => List.length (post_likes p))
               (find_post oid (posts (world_of r1))).
Proof.
  intros r1 H200 Hf r2.
  assert (E : r2 = mkResult (Some (mkResponse 400 (Msg "Post already liked")))
                            (world_of r1) None).
  { destruct (like_post_inv req w)
      as [(_ & oid & p & Hc & Hp & Hl & Hposts) | (Hno & _)];
      [|contradiction].
    fold r1 in Hposts.
    apply (like_already_liked req (world_of r1) oid
             (set_likes p (mkLike (req_user_id req) :: post_likes p)));
      [exact Hf | exact Hc | |].
    - rewrite Hposts, <- (find_post_id _ _ _ Hp).
      exact (find_post_upsert
               (set_likes p (mkLike (req_user_id req) :: post_likes p))
               (posts w)).
    - unfold liked_by. simpl. now rewrite String.eqb_refl. }
  split; [exact E|]. intros oid. now rewrite E.
Qed.

Lemma second_like_rejected_witness :
  let req := Sample.on_post Sample.alice_id Sample.post2_id in
  let r1 := serve like_post req Sample.w0 in
  let r2 := serve like_post req (world_of r1) in
  r2 = mkResult (Some (mkResponse 400 (Msg "Post already liked")))
                (world_of r1) None /\
  forall oid,
    option_map (fun p => List.length (post_likes p))
               (find_post oid (posts (world_of r2))) =
    option_map (fun p => List.length (post_likes p))
               (find_post oid (posts (world_of r1))).
Proof.
  apply (second_like_rejected
           (Sample.on_post Sample.alice_id Sample.post2_id) Sample.w0).
  - reflexivity.
  - reflexivity.
Defined.

Lemma throw_keeps_sent (r : route) (req : request) (s s' : state)
      (e : Js.error) :
  try_block_of r req s = (Exc e, s') -> sent s' = sent s.
Proof.
  destruct s as [[ps us fs ck seed con] snt].
  destruct r; simpl; unfold_handlers; simpl; intros H.
  all: repeat break_inner H.
  all: try discriminate.
  all: try (injection H as _ <-; reflexivity).
Qed.

(** ** Faults *)

Lemma handler_is_try_catch (r : route) (req : request) (s : state) :
  passes_validation r req ->
  handler_of r req s = try_catch (try_block_of r req) (catch_of r) s.
Proof.
  destruct r; simpl; intros H; try reflexivity.
  - unfold create_post. rewrite H. reflexivity.
  - unfold add_comment. rewrite H. reflexivity.
Qed.

Lemma non_empty_text_passes (msg : string) (req : request) (t : string) :
  body_text req = Some t -> t <> "" -> check_text_not_empty msg req = [].
Proof.
  intros Ht Hne. unfold check_text_not_empty. rewrite Ht.
  destruct (String.eqb_spec t ""); [contradiction | reflexivity].
Qed.

(** C3 fails both ways. A like request with a malformed post id raises
    Mongoose's CastError, of kind ObjectId, and is answered 500, not 404.
    A delete request for a post that does not exist raises a TypeError, which
    the [catch] clause of that route, having no [else], leaves without any
    response. *)
Lemma fault_policy_not_uniform :
  let bad := Sample.on_post Sample.alice_id "no-such-id" in
  let gone := Sample.on_post Sample.alice_id Sample.missing_id in
  (like_body bad (mkState Sample.w0 None) =
     (Exc (Js.cast_error "no-such-id"), mkState Sample.w0 None) /\
   Js.kind_is (Js.cast_error "no-such-id") "ObjectId" = true /\
   response_of (serve like_post bad Sample.w0) = Some server_error_response) /\
  (delete_post_body gone (mkState Sample.w0 None) =
     (Exc (Js.null_deref "user"), mkState Sample.w0 None) /\
   Js.kind_is (Js.null_deref "user") "ObjectId" = false /\
   response_of (serve delete_post gone Sample.w0) = None) /\
  ~ uniform_fault_policy.
Proof.
  repeat split; try reflexivity.
  intros H.
  specialize (H LikePost (Sample.on_post Sample.alice_id "no-such-id")
                Sample.w0 (Js.cast_error "no-such-id")
                (mkState Sample.w0 None) I eq_refl).
  vm_compute in H. discriminate.
Qed.

(** C3, amended. An error thrown in the [try] block of a route is caught.
    In [POST /], [GET /], [PUT /like], [PUT /unlike] and [POST /comment] the
    answer is the generic 500, whatever the error, a malformed identifier
    included. In [GET /myposts], [DELETE /myposts] and
    [DELETE /delete_comment] an error of kind ObjectId is answered 404. *)
Theorem fault_policy (r : route) (req : request) (w : world) (e : Js.error)
        (s' : state) :
  passes_validation r req ->
  try_block_of r req (mkState w None) = (Exc e, s') ->
  let res := serve (handler_of r) req w in
  if answers_500 r then
    response_of res = Some server_error_response /\ uncaught res = None
  else
    Js.kind_is e "ObjectId" = true ->
    response_of res = Some (not_found_of r) /\ uncaught res = None.
Proof.
  intros Hv Hthrow res.
  pose proof (throw_keeps_sent r req _ _ _ Hthrow) as Hsent. simpl in Hsent.
  assert (E : handler_of r req (mkState w None) = catch_of r e s').
  { rewrite (handler_is_try_catch r req _ Hv).
    now apply try_catch_throw. }
  unfold res, serve. rewrite E. clear E res Hthrow Hv.
  destruct s' as [w' snt]. simpl in Hsent. subst snt.
  destruct r; simpl; try intros Hk;
    unfold server_error_return, server_error, post_not_found,
      delete_comment_catch, console_error, res_status, when, bind, ret,
      return_, get_world, put_world;
    simpl; try rewrite Hk; simpl; split; reflexivity.
Qed.

Lemma fault_policy_witness :
  response_of
    (serve (handler_of DeletePost)
           (Sample.on_post Sample.alice_id "no-such-id") Sample.w0) =
    Some (not_found_of DeletePost) /\
  uncaught
    (serve (handler_of DeletePost)
           (Sample.on_post Sample.alice_id "no-such-id") Sample.w0) = None.
Proof.
  apply (fault_policy DeletePost (Sample.on_post Sample.alice_id "no-such-id")
           Sample.w0 (Js.cast_error "no-such-id") (mkState Sample.w0 None)).
  - exact I.
  - reflexivity.
  - reflexivity.
Defined.

(** In [DELETE /delete_comment] an error of another kind makes the [catch]
    clause read [postID], and the ReferenceError leaves the handler: the 500
    of its [else] branch is never sent. *)
Lemma delete_comment_other_fault_escapes (req : request) (w : world)
      (e : Js.error) (s' : state) :
  delete_comment_body req (mkState w None) = (Exc e, s') ->
  Js.kind_is e "ObjectId" = false ->
  response_of (serve delete_comment req w) = None /\
  uncaught (serve delete_comment req w) = Some (Js.not_defined "postID").
Proof.
  intros Hthrow Hk.
  pose proof (throw_keeps_sent DeleteComment req _ _ _ Hthrow) as Hsent.
  unfold serve, delete_comment.
  rewrite (try_catch_throw _ delete_comment_catch _ _ _ Hthrow).
  destruct s' as [w' snt]. simpl in Hsent. subst snt.
  unfold delete_comment_catch, postID, bind, throw. rewrite Hk.
  split; reflexivity.
Qed.

(** ** Deleting a post *)

(** C2. [DELETE /myposts/:postID] with a well-formed id that no post has, no
    repository call failing: [post.user] is read on [null] before [!post] is
    tested, the TypeError goes to the [catch] clause, and no 404 (no response
    at all) is sent; nothing is removed. *)
Theorem delete_missing_post_faults (req : request) (w : world)
        (oid : string) :
  faults w = [] ->
  ObjectId.cast (param_postID req) = Some oid ->
  find_post oid (posts w) = None ->
  delete_post_body req (mkState w None) =
    (Exc (Js.null_deref "user"), mkState w None) /\
  serve delete_post req w = mkResult None w None.
Proof.
  intros Hf Hc Hp.
  assert (E : delete_post_body req (mkState w None) =
              (Exc (Js.null_deref "user"), mkState w None)).
  { unfold_handlers. simpl. rewrite Hc. simpl. rewrite Hf. simpl.
    rewrite Hp. reflexivity. }
  split; [exact E|].
  unfold serve, delete_post.
  rewrite (try_catch_throw _ post_not_found _ _ _ E). reflexivity.
Qed.

Lemma delete_missing_post_faults_witness :
  let req := Sample.on_post Sample.alice_id Sample.missing_id in
  delete_post_body req (mkState Sample.w0 None) =
    (Exc (Js.null_deref "user"), mkState Sample.w0 None) /\
  serve delete_post req Sample.w0 = mkResult None Sample.w0 None.
Proof.
  apply (delete_missing_post_faults
           (Sample.on_post Sample.alice_id Sample.missing_id) Sample.w0
           Sample.missing_id).
  - reflexivity.
  - reflexivity.
  - reflexivity.
Defined.

(** ** Comments *)

(** C10. [POST /comment/:postID] with a non-empty text and a well-formed id
    that no post has, no repository call failing: the answer is the generic
    500, not a 404, and the posts are what they were, so no comment was
    stored. When the acting user exists, the error caught is the TypeError of
    [post.comments] on [null]. *)
Theorem add_comment_missing_post (req : request) (w : world)
        (t oid : string) :
  body_text req = Some t -> t <> "" ->
  faults w = [] ->
  ObjectId.cast (param_postID req) = Some oid ->
  find_post oid (posts w) = None ->
  let res := serve add_comment req w in
  response_of res = Some server_error_response /\
  uncaught res = None /\
  posts (world_of res) = posts w /\
  forall uoid u,
    ObjectId.cast (req_user_id req) = Some uoid ->
    find_user uoid (users w) = Some u ->
    add_comment_body req (mkState w None) =
      (Exc (Js.null_deref "comments"), mkState w None).
Proof.
  intros Ht Hne Hf Hc Hp res.
  assert (Hv : passes_validation AddComment req)
    by (exact (non_empty_text_passes _ req t Ht Hne)).
  assert (E : forall s, add_comment req s =
                        try_catch (add_comment_body req) server_error s)
    by (intros s; exact (handler_is_try_catch AddComment req s Hv)).
  unfold res, serve. rewrite E. clear E.
  destruct w as [ps us fs ck seed con]. simpl in *. subst fs.
  unfold_handlers. simpl. rewrite Hc. simpl. rewrite Hp. simpl.
  destruct (ObjectId.cast (req_user_id req)) as [uoid|] eqn:Hu; simpl.
  - destruct (find_user uoid us) as [u|] eqn:Hfu; simpl.
    + split; [reflexivity|]. split; [reflexivity|]. split; [reflexivity|].
      intros uoid' u' [= <-] _. reflexivity.
    + split; [reflexivity|]. split; [reflexivity|]. split; [reflexivity|].
      intros uoid' u' [= <-]. congruence.
  - split; [reflexivity|]. split; [reflexivity|]. split; [reflexivity|].
    discriminate.
Qed.

Lemma add_comment_missing_post_witness :
  let req :=
    mkRequest Sample.alice_id Sample.missing_id "" "" (Some "hi") in
  let res := serve add_comment req Sample.w0 in
  response_of res = Some server_error_response /\
  uncaught res = None /\
  posts (world_of res) = posts Sample.w0 /\
  forall uoid u,
    ObjectId.cast (req_user_id req) = Some uoid ->
    find_user uoid (users Sample.w0) = Some u ->
    add_comment_body req (mkState Sample.w0 None) =
      (Exc (Js.null_deref "comments"), mkState Sample.w0 None).
Proof.
  apply (add_comment_missing_post
           (mkRequest Sample.alice_id Sample.missing_id "" "" (Some "hi"))
           Sample.w0 "hi" Sample.missing_id).
  - reflexivity.
  - discriminate.
  - reflexivity.
  - reflexivity.
  - reflexivity.
Defined.




(** ** Listing the posts *)

Lemma insert_desc_perm (p : post) (ps : list post) :
  Permutation (insert_desc p ps) (p :: ps).
Proof.
  induction ps as [|q ps IH]; simpl; [reflexivity|].
  destruct (post_date q <=? post_date p); [reflexivity|].
  rewrite IH. apply perm_swap.
Qed.

Lemma sort_date_desc_perm (ps : list post) :
  Permutation (sort_date_desc ps) ps.
Proof.
  induction ps as [|p ps IH]; simpl; [reflexivity|].
  rewrite insert_desc_perm. now constructor.
Qed.

Lemma insert_desc_hd (p q : post) (ps : list post) :
  newer_first q p -> HdRel newer_first q ps ->
  HdRel newer_first q (insert_desc p ps).
Proof.
  intros Hqp H. destruct ps as [|r ps]; simpl; [now constructor|].
  destruct (post_date r <=? post_date p); constructor; trivial.
  now inversion H.
Qed.

Lemma insert_desc_sorted (p : post) (ps : list post) :
  Sorted newer_first ps -> Sorted newer_first (insert_desc p ps).
Proof.
  induction 1 as [|q ps Hs IH Hhd]; simpl.
  - repeat constructor.
  - destruct (Z.leb_spec (post_date q) (post_date p)).
    + constructor; [now constructor|]. constructor. exact H.
    + constructor; [exact IH|].
      apply insert_desc_hd; [unfold newer_first; lia | exact Hhd].
Qed.

Lemma sort_date_desc_sorted (ps : list post) :
  StronglySorted newer_first (sort_date_desc ps).
Proof.
  apply Sorted_StronglySorted.
  - intros a b c Hab Hbc. unfold newer_first in *. lia.
  - induction ps as [|p ps IH]; simpl; [constructor|].
    now apply insert_desc_sorted.
Qed.

(** C9. [GET /], the repository call not failing, answers 200 with all the
    stored posts, each exactly once (a permutation of the collection: nothing
    filtered out, no page cut), ordered so that no post comes before a more
    recent one; the collection itself is untouched. *)
Theorem list_posts_all_newest_first (req : request) (w : world) :
  faults w = [] ->
  exists l,
    serve list_posts req w =
      mkResult (Some (mkResponse 200 (PostDocs l))) w None /\
    Permutation l (posts w) /\
    StronglySorted newer_first l.
Proof.
  intros Hf. exists (sort_date_desc (posts w)).
  split; [|split].
  - destruct w as [ps us fs ck seed con]. simpl in *. subst fs. reflexivity.
  - apply sort_date_desc_perm.
  - apply sort_date_desc_sorted.
Qed.

Lemma list_posts_all_newest_first_witness :
  exists l,
    serve list_posts (Sample.on_post Sample.alice_id "") Sample.w0 =
      mkResult (Some (mkResponse 200 (PostDocs l))) Sample.w0 None /\
    Permutation l (posts Sample.w0) /\
    StronglySorted newer_first l.
Proof.
  apply (list_posts_all_newest_first
           (Sample.on_post Sample.alice_id "") Sample.w0).
  reflexivity.
Defined.

(** ** Creating a post *)

(** C8. [POST /] with a non-empty text by an acting user whose document
    exists, no repository call failing: the answer is 200 with a Post whose
    [user] is the acting id, whose [name] and [avatar] are those of the user's
    document at that moment, whose [text] is the text sent, and whose [likes]
    and [comments] are empty; that Post is stored under its id. *)
Theorem create_post_returns_snapshot (req : request) (w : world)
        (t uoid : string) (u : user) :
  body_text req = Some t -> t <> "" ->
  faults w = [] ->
  ObjectId.cast (req_user_id req) = Some uoid ->
  find_user uoid (users w) = Some u ->
  let res := serve create_post req w in
  exists p,
    response_of res = Some (mkResponse 200 (PostDoc p)) /\
    post_user p = req_user_id req /\
    post_name p = user_name u /\
    post_avatar p = user_avatar u /\
    post_text p = t /\
    post_likes p = [] /\
    post_comments p = [] /\
    find_post (post_id p) (posts (world_of res)) = Some p.
Proof.
  intros Ht Hne Hf Hc Hfu res.
  assert (Hv : passes_validation CreatePost req)
    by (exact (non_empty_text_passes _ req t Ht Hne)).
  assert (E : forall s, create_post req s =
                        try_catch (create_post_body req) server_error_return s)
    by (intros s; exact (handler_is_try_catch CreatePost req s Hv)).
  unfold res, serve. rewrite E. clear E.
  destruct w as [ps us fs ck seed con]. simpl in *. subst fs.
  unfold_handlers. unfold req_body_text. simpl. rewrite Hc. simpl.
  rewrite Hfu, Ht. simpl.
  eexists. split; [reflexivity|]. simpl.
  repeat (split; [reflexivity|]).
  match goal with
  | |- find_post _ (upsert ?p _) = _ => exact (find_post_upsert p ps)
  end.
Qed.

Lemma create_post_returns_snapshot_witness :
  let req := mkRequest Sample.alice_id "" "" "" (Some "hello") in
  let res := serve create_post req Sample.w0 in
  exists p,
    response_of res = Some (mkResponse 200 (PostDoc p)) /\
    post_user p = Sample.alice_id /\
    post_name p = "Alice" /\
    post_avatar p = "alice.png" /\
    post_text p = "hello" /\
    post_likes p = [] /\
    post_comments p = [] /\
    find_post (post_id p) (posts (world_of res)) = Some p.
Proof.
  apply (create_post_returns_snapshot
           (mkRequest Sample.alice_id "" "" "" (Some "hello")) Sample.w0
           "hello" Sample.alice_id Sample.alice).
  - reflexivity.
  - discriminate.
  - reflexivity.
  - reflexivity.
  - reflexivity.
Defined.

(* ===================================================================== *)
(** * Further properties of the handlers *)
(* ===================================================================== *)

(** ** All routes *)

(** Case analysis along the run of a handler recorded in [H], ending with
    the final outcome and state. *)
Ltac run_cases H :=
  unfold_handlers; simpl in H; repeat break_inner H;
  try discriminate H;
  try (injection H as <- <-).

(** X1. A request that is not answered 200 leaves the collection of posts as it
    was, whatever the route, the request and the repository faults. *)
Theorem failed_request_keeps_posts (r : route) (req : request) (w : world) :
  status_of (serve (handler_of r) req w) <> Some 200 ->
  posts (world_of (serve (handler_of r) req w)) = posts w.
Proof.
  unfold status_of, serve.
  destruct (handler_of r req (mkState w None)) as [o s] eqn:H.
  destruct w as [ps us fs ck seed con].
  destruct r; simpl in H; run_cases H; simpl; intros Hs;
    try reflexivity; try (exfalso; apply Hs; reflexivity).
Qed.

Lemma failed_request_keeps_posts_witness :
  posts (world_of (serve (handler_of LikePost)
                         (Sample.on_post Sample.bob_id Sample.post1_id)
                         Sample.w0)) = posts Sample.w0.
Proof.
  apply (failed_request_keeps_posts LikePost
           (Sample.on_post Sample.bob_id Sample.post1_id) Sample.w0).
  vm_compute. discriminate.
Defined.

(** X2. No route writes to the collection of users. *)
Theorem users_never_change (r : route) (req : request) (w : world) :
  users (world_of (serve (handler_of r) req w)) = users w.
Proof.
  unfold serve.
  destruct (handler_of r req (mkState w None)) as [o s] eqn:H.
  destruct w as [ps us fs ck seed con].
  destruct r; simpl in H; run_cases H; reflexivity.
Qed.

(** X3. The routes whose [catch] clause is unconditional always answer, with
    200, 400 or 500, and let no error escape. *)
Theorem unconditional_catch_always_answers (r : route) (req : request)
        (w : world) :
  answers_500 r = true ->
  uncaught (serve (handler_of r) req w) = None /\
  (status_of (serve (handler_of r) req w) = Some 200 \/
   status_of (serve (handler_of r) req w) = Some 400 \/
   status_of (serve (handler_of r) req w) = Some 500).
Proof.
  unfold status_of, serve.
  destruct (handler_of r req (mkState w None)) as [o s] eqn:H.
  destruct w as [ps us fs ck seed con].
  destruct r; simpl; try discriminate; intros _; simpl in H; run_cases H;
    simpl; auto.
Qed.

Lemma unconditional_catch_always_answers_witness :
  uncaught (serve (handler_of UnlikePost)
                  (Sample.on_post Sample.alice_id "no-such-id") Sample.w0)
    = None /\
  (status_of (serve (handler_of UnlikePost)
                    (Sample.on_post Sample.alice_id "no-such-id") Sample.w0)
     = Some 200 \/
   status_of (serve (handler_of UnlikePost)
                    (Sample.on_post Sample.alice_id "no-such-id") Sample.w0)
     = Some 400 \/
   status_of (serve (handler_of UnlikePost)
                    (Sample.on_post Sample.alice_id "no-such-id") Sample.w0)
     = Some 500).
Proof.
  apply (unconditional_catch_always_answers UnlikePost
           (Sample.on_post Sample.alice_id "no-such-id") Sample.w0).
  reflexivity.
Defined.

(** ** The routes that rewrite a post *)

Lemma find_post_upsert_other (oid : string) (p : post) (ps : list post) :
  post_id p <> oid -> find_post oid (upsert p ps) = find_post oid ps.
Proof.
  intros Hne. unfold find_post.
  assert (Hp : String.eqb (post_id p) oid = false)
    by (now apply String.eqb_neq).
  induction ps as [|q ps IH]; simpl.
  - now rewrite Hp.
  - destruct (String.eqb (post_id q) (post_id p)) eqn:E; simpl.
    + apply String.eqb_eq in E. rewrite E, Hp. reflexivity.
    + now rewrite IH.
Qed.

Lemma same_core_refl (p : post) : same_core p p.
Proof. repeat split. Qed.

(** What a like, an unlike, a new comment or the removal of a comment can do
    to the collection: nothing, or the replacement of the post named in the
    path by a version of it with other likes or comments. *)
Lemma edit_inv (r : route) (req : request) (w : world) :
  edits_post r = true ->
  posts (world_of (serve (handler_of r) req w)) = posts w \/
  exists oid p p',
    ObjectId.cast (param_postID req) = Some oid /\
    find_post oid (posts w) = Some p /\
    posts (world_of (serve (handler_of r) req w)) = upsert p' (posts w) /\
    same_core p p'.
Proof.
  unfold serve.
  destruct (handler_of r req (mkState w None)) as [o s] eqn:H.
  destruct w as [ps us fs ck seed con].
  destruct r; simpl; try discriminate; intros _; simpl in H; run_cases H;
    simpl; try (left; reflexivity).
  all: right;
    match goal with
    | Hc : ObjectId.cast (param_postID _) = Some ?o,
      Hp : find_post ?o _ = Some ?p |- _ =>
        exists o, p; eexists;
        split; [reflexivity | split; [exact Hp | split; [reflexivity |]]]
    end.
  all: repeat split.
Qed.

(** X4. Like, unlike, add-comment and delete-comment touch no post but the one
    named in the path: a lookup of any other id gives what it gave before. *)
Theorem edits_touch_only_named_post (r : route) (req : request) (w : world)
        (oid' : string) :
  edits_post r = true ->
  ObjectId.cast (param_postID req) <> Some oid' ->
  find_post oid' (posts (world_of (serve (handler_of r) req w))) =
    find_post oid' (posts w).
Proof.
  intros Hr Hne.
  destruct (edit_inv r req w Hr)
    as [-> | (oid & p & p' & Hc & Hp & -> & Hid & _)]; [reflexivity|].
  apply find_post_upsert_other.
  rewrite <- Hid, (find_post_id _ _ _ Hp). congruence.
Qed.

Lemma edits_touch_only_named_post_witness :
  find_post Sample.post2_id
    (posts (world_of (serve (handler_of LikePost)
                            (Sample.on_post Sample.carol_id Sample.post1_id)
                            Sample.w0))) =
    find_post Sample.post2_id (posts Sample.w0).
Proof.
  apply (edits_touch_only_named_post LikePost
           (Sample.on_post Sample.carol_id Sample.post1_id) Sample.w0
           Sample.post2_id).
  - reflexivity.
  - vm_compute. discriminate.
Defined.

(** X5. A stored post keeps its id, owner, text, name, avatar and date through
    every like, unlike, add-comment and delete-comment request, and is still
    stored afterwards. *)
Theorem edits_keep_core_fields (r : route) (req : request) (w : world)
        (oid : string) (p : post) :
  edits_post r = true ->
  find_post oid (posts w) = Some p ->
  exists p',
    find_post oid (posts (world_of (serve (handler_of r) req w))) = Some p' /\
    same_core p p'.
Proof.
  intros Hr Hp.
  destruct (edit_inv r req w Hr)
    as [-> | (oid0 & p0 & p' & _ & Hp0 & -> & Hcore)].
  - exists p. split; [exact Hp | apply same_core_refl].
  - pose proof (find_post_id _ _ _ Hp0) as Hid0.
    destruct Hcore as (Hid & Hrest).
    destruct (String.eqb_spec oid0 oid) as [E|E].
    + subst oid. exists p'. split.
      * rewrite <- Hid0, Hid. apply find_post_upsert.
      * assert (p0 = p) by congruence. subst p0. now split.
    + exists p. split; [|apply same_core_refl].
      rewrite find_post_upsert_other; [exact Hp | congruence].
Qed.

Lemma edits_keep_core_fields_witness :
  exists p',
    find_post Sample.post1_id
      (posts (world_of (serve (handler_of UnlikePost)
                              (Sample.on_post Sample.bob_id Sample.post1_id)
                              Sample.w0))) = Some p' /\
    same_core Sample.post1 p'.
Proof.
  apply (edits_keep_core_fields UnlikePost
           (Sample.on_post Sample.bob_id Sample.post1_id) Sample.w0
           Sample.post1_id Sample.post1).
  - reflexivity.
  - reflexivity.
Defined.

(** ** Likes *)

(** X6. [PUT /unlike/:postID] on a stored post the acting user has not liked, no
    repository call failing: 400, and nothing changes. *)
Theorem unlike_without_like_rejected (req : request) (w : world)
        (oid : string) (p : post) :
  faults w = [] ->
  ObjectId.cast (param_postID req) = Some oid ->
  find_post oid (posts w) = Some p ->
  (forall l, In l (post_likes p) -> like_user l <> req_user_id req) ->
  serve unlike_post req w =
    mkResult
      (Some (mkResponse 400
         (Msg "You must, first, like the post before you can remove it")))
      w None.
Proof.
  intros Hf Hc Hp Hnone.
  apply (unlike_not_liked req w oid p Hf Hc Hp).
  unfold liked_by.
  destruct (existsb _ (post_likes p)) eqn:E; [|reflexivity].
  apply existsb_exists in E. destruct E as (l & Hin & Hl).
  apply String.eqb_eq in Hl. now destruct (Hnone l Hin).
Qed.

Lemma unlike_without_like_rejected_witness :
  serve unlike_post (Sample.on_post Sample.carol_id Sample.post1_id)
        Sample.w0 =
    mkResult
      (Some (mkResponse 400
         (Msg "You must, first, like the post before you can remove it")))
      Sample.w0 None.
Proof.
  apply (unlike_without_like_rejected
           (Sample.on_post Sample.carol_id Sample.post1_id) Sample.w0
           Sample.post1_id Sample.post1).
  - reflexivity.
  - reflexivity.
  - reflexivity.
  - intros l [<-|[<-|[]]]; discriminate.
Defined.

Lemma splice_last_length {A} (l : list A) :
  l <> [] -> S (List.length (Js.splice (-1) 1 l)) = List.length l.
Proof.
  intros Hne. destruct l as [|x l]; [contradiction|].
  unfold Js.splice. change (-1 <? 0) with true. cbv iota.
  rewrite length_app, length_firstn, length_skipn. simpl List.length. lia.
Qed.

Lemma unliked_length (uid : string) (likes : list like) :
  likes <> [] -> S (List.length (unliked uid likes)) = List.length likes.
Proof.
  intros Hne. unfold unliked. rewrite find_const.
  destruct (Js.truthy uid).
  - destruct likes as [|l likes]; [contradiction|]. simpl.
    unfold like_eqb. rewrite String.eqb_refl. now rewrite splice_head.
  - simpl. now apply splice_last_length.
Qed.

Lemma unliked_incl (uid : string) (likes : list like) (x : like) :
  In x (unliked uid likes) -> In x likes.
Proof.
  unfold unliked.
  destruct (splice_shape
              (Js.indexOf like_eqb likes (find (fun _ => Js.truthy uid) likes))
              1 likes) as (a & b & _ & ->).
  intros H. apply in_app_or in H. destruct H as [H|H].
  - rewrite <- (firstn_skipn a likes). apply in_or_app. now left.
  - now apply (In_skipn b).
Qed.

(** X7. [PUT /unlike/:postID] on a stored post the acting user likes, no
    repository call failing: 200, the likes answered are the likes stored, and
    they are the former likes less exactly one entry. *)
Theorem unlike_removes_exactly_one (req : request) (w : world)
        (oid : string) (p : post) :
  faults w = [] ->
  ObjectId.cast (param_postID req) = Some oid ->
  find_post oid (posts w) = Some p ->
  liked_by (req_user_id req) p = true ->
  exists likes,
    response_of (serve unlike_post req w) =
      Some (mkResponse 200 (Likes likes)) /\
    find_post oid (posts (world_of (serve unlike_post req w))) =
      Some (set_likes p likes) /\
    S (List.length likes) = List.length (post_likes p) /\
    forall l, In l likes -> In l (post_likes p).
Proof.
  intros Hf Hc Hp Hl.
  exists (unliked (req_user_id req) (post_likes p)).
  rewrite (unlike_liked req w oid p Hf Hc Hp Hl). simpl.
  split; [reflexivity|]. split; [|split].
  - rewrite <- (find_post_id _ _ _ Hp).
    exact (find_post_upsert (set_likes p _) (posts w)).
  - apply unliked_length. intros E. unfold liked_by in Hl.
    rewrite E in Hl. discriminate.
  - intros l. apply unliked_incl.
Qed.

Lemma unlike_removes_exactly_one_witness :
  let req := Sample.on_post Sample.bob_id Sample.post1_id in
  exists likes,
    response_of (serve unlike_post req Sample.w0) =
      Some (mkResponse 200 (Likes likes)) /\
    find_post Sample.post1_id
      (posts (world_of (serve unlike_post req Sample.w0))) =
      Some (set_likes Sample.post1 likes) /\
    S (List.length likes) = List.length (post_likes Sample.post1) /\
    forall l, In l likes -> In l (post_likes Sample.post1).
Proof.
  apply (unlike_removes_exactly_one
           (Sample.on_post Sample.bob_id Sample.post1_id) Sample.w0
           Sample.post1_id Sample.post1).
  - reflexivity.
  - reflexivity.
  - reflexivity.
  - reflexivity.
Defined.

(** X8. [PUT /like/:postID] and [PUT /unlike/:postID] with a well-formed id that
    no post has, no repository call failing: reading [post.likes] on [null]
    throws, and the answer is the generic 500, not a 404; no post changes. *)
Theorem like_unlike_missing_post (req : request) (w : world) (oid : string) :
  faults w = [] ->
  ObjectId.cast (param_postID req) = Some oid ->
  find_post oid (posts w) = None ->
  like_body req (mkState w None) =
    (Exc (Js.null_deref "likes"), mkState w None) /\
  unlike_body req (mkState w None) =
    (Exc (Js.null_deref "likes"), mkState w None) /\
  response_of (serve like_post req w) = Some server_error_response /\
  response_of (serve unlike_post req w) = Some server_error_response /\
  posts (world_of (serve like_post req w)) = posts w /\
  posts (world_of (serve unlike_post req w)) = posts w.
Proof.
  intros Hf Hc Hp.
  destruct w as [ps us fs ck seed con]. simpl in *. subst fs.
  unfold_handlers. simpl. rewrite Hc. simpl. rewrite Hp. simpl.
  repeat split.
Qed.

Lemma like_unlike_missing_post_witness :
  let req := Sample.on_post Sample.alice_id Sample.missing_id in
  like_body req (mkState Sample.w0 None) =
    (Exc (Js.null_deref "likes"), mkState Sample.w0 None) /\
  unlike_body req (mkState Sample.w0 None) =
    (Exc (Js.null_deref "likes"), mkState Sample.w0 None) /\
  response_of (serve like_post req Sample.w0) = Some server_error_response /\
  response_of (serve unlike_post req Sample.w0) = Some server_error_response /\
  posts (world_of (serve like_post req Sample.w0)) = posts Sample.w0 /\
  posts (world_of (serve unlike_post req Sample.w0)) = posts Sample.w0.
Proof.
  apply (like_unlike_missing_post
           (Sample.on_post Sample.alice_id Sample.missing_id) Sample.w0
           Sample.missing_id).
  - reflexivity.
  - reflexivity.
  - reflexivity.
Defined.

(** ** Validation *)

(** X9. [POST /] and [POST /comment/:postID] without a text, or with an empty
    one, are answered 400 with the error of the [text] field before anything
    else happens: the world, pending repository calls included, is as it was,
    whatever the ids of the request. *)
Theorem empty_text_rejected (req : request) (w : world) :
  body_text req = None \/ body_text req = Some "" ->
  serve create_post req w =
    mkResult
      (Some (mkResponse 400
         (Errors [mkValidationError "Text is required to create a post."
                                    "text"])))
      w None /\
  serve add_comment req w =
    mkResult
      (Some (mkResponse 400
         (Errors [mkValidationError "Text is required" "text"])))
      w None.
Proof.
  intros Ht. unfold serve, create_post, add_comment, check_text_not_empty.
  destruct Ht as [-> | ->]; split; reflexivity.
Qed.

Lemma empty_text_rejected_witness :
  let req := mkRequest Sample.alice_id Sample.post1_id "" "" (Some "") in
  serve create_post req Sample.w0 =
    mkResult
      (Some (mkResponse 400
         (Errors [mkValidationError "Text is required to create a post."
                                    "text"])))
      Sample.w0 None /\
  serve add_comment req Sample.w0 =
    mkResult
      (Some (mkResponse 400
         (Errors [mkValidationError "Text is required" "text"])))
      Sample.w0 None.
Proof.
  apply (empty_text_rejected
           (mkRequest Sample.alice_id Sample.post1_id "" "" (Some ""))
           Sample.w0).
  right. reflexivity.
Defined.

(** ** Posts of an owner *)

(** X10. [GET /myposts/:userID] with a well-formed id, the repository call not
    failing: always 200, never the 404 of the [try] block, with the stored
    posts of that owner and no others, in the order of the collection (so an
    empty list when the owner has no post); the world is as it was. *)
Theorem my_posts_lists_owner (req : request) (w : world) (oid : string) :
  faults w = [] ->
  ObjectId.cast (param_userID req) = Some oid ->
  exists l,
    serve my_posts req w =
      mkResult (Some (mkResponse 200 (PostDocs l))) w None /\
    l = filter (fun p => String.eqb (post_user p) oid) (posts w) /\
    (forall p, In p l <-> In p (posts w) /\ post_user p = oid) /\
    ((forall p, In p (posts w) -> post_user p <> oid) -> l = []).
Proof.
  intros Hf Hc.
  exists (filter (fun p => String.eqb (post_user p) oid) (posts w)).
  split; [|split; [reflexivity|split]].
  - destruct w as [ps us fs ck seed con]. simpl in *. subst fs.
    unfold_handlers. simpl. rewrite Hc. reflexivity.
  - intros p. rewrite filter_In, String.eqb_eq. reflexivity.
  - intros Hnone.
    destruct (filter _ (posts w)) as [|p l] eqn:E; [reflexivity|].
    assert (Hin : In p (filter (fun p => String.eqb (post_user p) oid)
                               (posts w))) by (rewrite E; now left).
    apply filter_In in Hin. destruct Hin as [Hin Hu].
    apply String.eqb_eq in Hu. now destruct (Hnone p Hin).
Qed.

Lemma my_posts_lists_owner_witness :
  let req := mkRequest Sample.bob_id "" Sample.alice_id "" None in
  exists l,
    serve my_posts req Sample.w0 =
      mkResult (Some (mkResponse 200 (PostDocs l))) Sample.w0 None /\
    l = filter (fun p => String.eqb (post_user p) Sample.alice_id)
               (posts Sample.w0) /\
    (forall p, In p l <->
               In p (posts Sample.w0) /\ post_user p = Sample.alice_id) /\
    ((forall p, In p (posts Sample.w0) -> post_user p <> Sample.alice_id) ->
     l = []).
Proof.
  apply (my_posts_lists_owner
           (mkRequest Sample.bob_id "" Sample.alice_id "" None) Sample.w0
           Sample.alice_id).
  - reflexivity.
  - reflexivity.
Defined.

(** ** Deleting a post *)

Lemma find_post_removed (oid : string) (ps : list post) :
  find_post oid
    (filter (fun q => negb (String.eqb (post_id q) oid)) ps) = None.
Proof.
  unfold find_post. induction ps as [|q ps IH]; simpl; [reflexivity|].
  destruct (String.eqb (post_id q) oid) eqn:E; simpl; [exact IH|].
  now rewrite E.
Qed.

Lemma find_post_removed_other (oid oid' : string) (ps : list post) :
  oid' <> oid ->
  find_post oid'
    (filter (fun q => negb (String.eqb (post_id q) oid)) ps) =
    find_post oid' ps.
Proof.
  intros Hne. unfold find_post.
  induction ps as [|q ps IH]; simpl; [reflexivity|].
  destruct (String.eqb (post_id q) oid) eqn:E; simpl.
  - apply String.eqb_eq in E.
    assert (String.eqb (post_id q) oid' = false) as ->
      by (apply String.eqb_neq; congruence).
    exact IH.
  - destruct (String.eqb (post_id q) oid'); [reflexivity | exact IH].
Qed.

Lemma delete_post_owner_result (req : request) (w : world) (oid : string)
      (p : post) :
  faults w = [] ->
  ObjectId.cast (param_postID req) = Some oid ->
  find_post oid (posts w) = Some p ->
  post_user p = req_user_id req ->
  serve delete_post req w =
    mkResult (Some (mkResponse 200 (Msg "Post removed")))
      (with_posts w
         (filter (fun q => negb (String.eqb (post_id q) oid)) (posts w)))
      None.
Proof.
  intros Hf Hc Hp Hu.
  pose proof (find_post_id _ _ _ Hp) as Hid.
  destruct w as [ps us fs ck seed con]. simpl in *. subst fs.
  unfold_handlers. simpl. rewrite Hc. simpl. rewrite Hp. simpl.
  rewrite Hu, String.eqb_refl. simpl. rewrite Hid. reflexivity.
Qed.

(** X11. [DELETE /myposts/:postID] by the owner of a stored post, no repository
    call failing: 200 "Post removed"; a lookup of the id finds nothing any
    more, and a lookup of any other id finds what it found before. *)
Theorem delete_post_by_owner (req : request) (w : world) (oid : string)
        (p : post) :
  faults w = [] ->
  ObjectId.cast (param_postID req) = Some oid ->
  find_post oid (posts w) = Some p ->
  post_user p = req_user_id req ->
  let res := serve delete_post req w in
  response_of res = Some (mkResponse 200 (Msg "Post removed")) /\
  uncaught res = None /\
  find_post oid (posts (world_of res)) = None /\
  (forall oid', oid' <> oid ->
     find_post oid' (posts (world_of res)) = find_post oid' (posts w)) /\
  users (world_of res) = users w.
Proof.
  intros Hf Hc Hp Hu res. unfold res.
  rewrite (delete_post_owner_result req w oid p Hf Hc Hp Hu). simpl.
  repeat split.
  - apply find_post_removed.
  - intros oid' Hne. now apply find_post_removed_other.
Qed.

Lemma delete_post_by_owner_witness :
  let res :=
    serve delete_post (Sample.on_post Sample.carol_id Sample.post1_id)
          Sample.w0 in
  response_of res = Some (mkResponse 200 (Msg "Post removed")) /\
  uncaught res = None /\
  find_post Sample.post1_id (posts (world_of res)) = None /\
  (forall oid', oid' <> Sample.post1_id ->
     find_post oid' (posts (world_of res)) =
     find_post oid' (posts Sample.w0)) /\
  users (world_of res) = users Sample.w0.
Proof.
  apply (delete_post_by_owner
           (Sample.on_post Sample.carol_id Sample.post1_id) Sample.w0
           Sample.post1_id Sample.post1).
  - reflexivity.
  - reflexivity.
  - reflexivity.
  - reflexivity.
Defined.

(** X12. [DELETE /myposts/:postID] on a stored post by somebody else, no
    repository call failing: 401, and nothing changes. *)
Theorem delete_post_by_other_rejected (req : request) (w : world)
        (oid : string) (p : post) :
  faults w = [] ->
  ObjectId.cast (param_postID req) = Some oid ->
  find_post oid (posts w) = Some p ->
  post_user p <> req_user_id req ->
  serve delete_post req w =
    mkResult (Some (mkResponse 401 (Msg "User not authorized"))) w None.
Proof.
  intros Hf Hc Hp Hu.
  destruct w as [ps us fs ck seed con]. simpl in *. subst fs.
  unfold_handlers. simpl. rewrite Hc. simpl. rewrite Hp. simpl.
  destruct (String.eqb_spec (post_user p) (req_user_id req));
    [contradiction | reflexivity].
Qed.

Lemma delete_post_by_other_rejected_witness :
  serve delete_post (Sample.on_post Sample.alice_id Sample.post1_id)
        Sample.w0 =
    mkResult (Some (mkResponse 401 (Msg "User not authorized")))
             Sample.w0 None.
Proof.
  apply (delete_post_by_other_rejected
           (Sample.on_post Sample.alice_id Sample.post1_id) Sample.w0
           Sample.post1_id Sample.post1).
  - reflexivity.
  - reflexivity.
  - reflexivity.
  - discriminate.
Defined.

(** ** Catch clauses without an answer *)

(** X13. In [GET /myposts], [DELETE /myposts] and [DELETE /delete_comment], an
    error thrown in the [try] block that is not of kind ObjectId gets no
    response. In the first two it is dropped without a trace, the world being
    as it was when the error was thrown; in the third a ReferenceError
    leaves the handler. *)
Theorem other_faults_unanswered (r : route) (req : request) (w : world)
        (e : Js.error) (s' : state) :
  answers_500 r = false ->
  try_block_of r req (mkState w None) = (Exc e, s') ->
  Js.kind_is e "ObjectId" = false ->
  let res := serve (handler_of r) req w in
  response_of res = None /\
  world_of res = st_world s' /\
  uncaught res =
    match r with
    | DeleteComment => Some (Js.not_defined "postID")
    | _ => None
    end.
Proof.
  intros Hr Hthrow Hk res.
  pose proof (throw_keeps_sent r req _ _ _ Hthrow) as Hsent. simpl in Hsent.
  assert (E : handler_of r req (mkState w None) = catch_of r e s').
  { rewrite (handler_is_try_catch r req _).
    - now apply try_catch_throw.
    - destruct r; try discriminate; exact I. }
  unfold res, serve. rewrite E.
  destruct s' as [w' snt]. simpl in Hsent. subst snt.
  destruct r; try discriminate; simpl;
    unfold post_not_found, delete_comment_catch, postID, when, bind, throw,
      ret;
    rewrite Hk; repeat split.
Qed.

Lemma other_faults_unanswered_witness :
  let res :=
    serve (handler_of DeletePost)
          (Sample.on_post Sample.alice_id Sample.missing_id) Sample.w0 in
  response_of res = None /\
  world_of res = st_world (mkState Sample.w0 None) /\
  uncaught res = None.
Proof.
  apply (other_faults_unanswered DeletePost
           (Sample.on_post Sample.alice_id Sample.missing_id) Sample.w0
           (Js.null_deref "user") (mkState Sample.w0 None)).
  - reflexivity.
  - reflexivity.
  - reflexivity.
Defined.

(** ** Comments *)

(** X14. [POST /comment/:postID] with a non-empty text on a stored post by an
    acting user whose document exists, no repository call failing: 200 with
    the comments of the post, a new comment first and the former ones after it
    in their order; the new comment carries the acting id, the name and avatar
    of the user's document, the text sent and the current time, and the post is
    stored with these comments (its likes as they were). *)
Theorem add_comment_prepends (req : request) (w : world)
        (t oid uoid : string) (p : post) (u : user) :
  body_text req = Some t -> t <> "" ->
  faults w = [] ->
  ObjectId.cast (param_postID req) = Some oid ->
  find_post oid (posts w) = Some p ->
  ObjectId.cast (req_user_id req) = Some uoid ->
  find_user uoid (users w) = Some u ->
  let res := serve add_comment req w in
  exists c,
    response_of res =
      Some (mkResponse 200 (Comments (c :: post_comments p))) /\
    uncaught res = None /\
    comment_user c = req_user_id req /\
    comment_name c = user_name u /\
    comment_avatar c = user_avatar u /\
    comment_text c = t /\
    comment_date c = clock w /\
    find_post oid (posts (world_of res)) =
      Some (set_comments p (c :: post_comments p)).
Proof.
  intros Ht Hne Hf Hc Hp Hu Hfu res.
  pose proof (find_post_id _ _ _ Hp) as Hid.
  assert (Hv : passes_validation AddComment req)
    by (exact (non_empty_text_passes _ req t Ht Hne)).
  assert (E : forall s, add_comment req s =
                        try_catch (add_comment_body req) server_error s)
    by (intros s; exact (handler_is_try_catch AddComment req s Hv)).
  unfold res, serve. rewrite E. clear E.
  destruct w as [ps us fs ck seed con]. simpl in *. subst fs.
  unfold_handlers. unfold req_body_text. simpl. rewrite Hc. simpl.
  rewrite Hp. simpl. rewrite Hu. simpl. rewrite Hfu, Ht. simpl.
  eexists. split; [reflexivity|]. simpl.
  repeat (split; [reflexivity|]).
  rewrite <- Hid.
  match goal with
  | |- find_post _ (upsert ?q _) = _ => exact (find_post_upsert q ps)
  end.
Qed.

Lemma add_comment_prepends_witness :
  let req := mkRequest Sample.alice_id Sample.post1_id "" "" (Some "hi") in
  let res := serve add_comment req Sample.w0 in
  exists c,
    response_of res =
      Some (mkResponse 200 (Comments (c :: post_comments Sample.post1))) /\
    uncaught res = None /\
    comment_user c = Sample.alice_id /\
    comment_name c = "Alice" /\
    comment_avatar c = "alice.png" /\
    comment_text c = "hi" /\
    comment_date c = 1000 /\
    find_post Sample.post1_id (posts (world_of res)) =
      Some (set_comments Sample.post1 (c :: post_comments Sample.post1)).
Proof.
  apply (add_comment_prepends
           (mkRequest Sample.alice_id Sample.post1_id "" "" (Some "hi"))
           Sample.w0 "hi" Sample.post1_id Sample.alice_id Sample.post1
           Sample.alice).
  - reflexivity.
  - discriminate.
  - reflexivity.
  - reflexivity.
  - reflexivity.
  - reflexivity.
  - reflexivity.
Defined.








(** X16. [DELETE /delete_comment/:postID/:comment_id] on a stored post that has no
    comment with the id, no repository call failing: 404 "Comment does not
    exist", whoever asks (a malformed [req.user.id] ends in the same answer
    through the [catch] clause), and no post changes. *)
Theorem delete_missing_comment_404 (req : request) (w : world)
        (oid : string) (p : post) :
  faults w = [] ->
  ObjectId.cast (param_postID req) = Some oid ->
  find_post oid (posts w) = Some p ->
  (forall c, In c (post_comments p) -> comment_id c <> param_comment_id req) ->
  let res := serve delete_comment req w in
  response_of res = Some (mkResponse 404 (Msg "Comment does not exist")) /\
  uncaught res = None /\
  posts (world_of res) = posts w.
Proof.
  intros Hf Hc Hp Hnone res.
  assert (Hcm : find (fun c => String.eqb (comment_id c)
                                          (param_comment_id req))
                     (post_comments p) = None).
  { destruct (find _ (post_comments p)) as [c|] eqn:E; [|reflexivity].
    apply find_some in E. destruct E as [Hin E].
    apply String.eqb_eq in E. now destruct (Hnone c Hin). }
  unfold res.
  destruct w as [ps us fs ck seed con]. simpl in *. subst fs.
  unfold_handlers. simpl. rewrite Hc. simpl. rewrite Hp. simpl.
  destruct (ObjectId.cast (req_user_id req)) as [uoid|]; simpl.
  - rewrite Hcm. simpl. repeat split.
  - repeat split.
Qed.

Lemma delete_missing_comment_404_witness :
  let res :=
    serve delete_comment
          (mkRequest Sample.bob_id Sample.post1_id "" Sample.missing_id None)
          Sample.w0 in
  response_of res = Some (mkResponse 404 (Msg "Comment does not exist")) /\
  uncaught res = None /\
  posts (world_of res) = posts Sample.w0.
Proof.
  apply (delete_missing_comment_404
           (mkRequest Sample.bob_id Sample.post1_id "" Sample.missing_id None)
           Sample.w0 Sample.post1_id Sample.post1).
  - reflexivity.
  - reflexivity.
  - reflexivity.
  - intros c [<-|[]]. discriminate.
Defined.

(** X17. [DELETE /delete_comment/:postID/:comment_id] with a well-formed post id
    that no post has, no repository call failing: [post.comments] on [null]
    throws, the [catch] clause throws in turn on [postID], and the request
    gets no response; nothing changes. *)
Theorem delete_comment_missing_post (req : request) (w : world)
        (oid : string) :
  faults w = [] ->
  ObjectId.cast (param_postID req) = Some oid ->
  find_post oid (posts w) = None ->
  delete_comment_body req (mkState w None) =
    (Exc (Js.null_deref "comments"), mkState w None) /\
  serve delete_comment req w =
    mkResult None w (Some (Js.not_defined "postID")).
Proof.
  intros Hf Hc Hp.
  destruct w as [ps us fs ck seed con]. simpl in *. subst fs.
  unfold_handlers. simpl. rewrite Hc. simpl. rewrite Hp. simpl.
  split; reflexivity.
Qed.

Lemma delete_comment_missing_post_witness :
  let req :=
    mkRequest Sample.bob_id Sample.missing_id "" Sample.comment1_id None in
  delete_comment_body req (mkState Sample.w0 None) =
    (Exc (Js.null_deref "comments"), mkState Sample.w0 None) /\
  serve delete_comment req Sample.w0 =
    mkResult None Sample.w0 (Some (Js.not_defined "postID")).
Proof.
  apply (delete_comment_missing_post
           (mkRequest Sample.bob_id Sample.missing_id "" Sample.comment1_id
                      None)
           Sample.w0 Sample.missing_id).
  - reflexivity.
  - reflexivity.
  - reflexivity.
Defined.

(** ** Creating and deleting *)

Lemma hex_char_canonical (d : N) :
  ObjectId.is_hex (ObjectId.hex_char d) = true /\
  ObjectId.lower (ObjectId.hex_char d) = ObjectId.hex_char d.
Proof.
  unfold ObjectId.hex_char. generalize (N.to_nat d). intros n.
  do 16 (destruct n as [|n]; [split; reflexivity|]).
  split; reflexivity.
Qed.

Lemma hex_fixed_canonical (k : nat) (n : N) (acc : string) :
  forallb ObjectId.is_hex (list_ascii_of_string acc) = true ->
  ObjectId.map_string ObjectId.lower acc = acc ->
  String.length (ObjectId.hex_fixed k n acc) = (k + String.length acc)%nat /\
  forallb ObjectId.is_hex
          (list_ascii_of_string (ObjectId.hex_fixed k n acc)) = true /\
  ObjectId.map_string ObjectId.lower (ObjectId.hex_fixed k n acc) =
    ObjectId.hex_fixed k n acc.
Proof.
  revert n acc; induction k as [|k IH]; intros n acc Hhex Hlow; simpl.
  - auto.
  - destruct (hex_char_canonical (n mod 16)) as [H1 H2].
    destruct (IH (n / 16)%N
                 (String (ObjectId.hex_char (n mod 16)) acc))
      as (Hlen & Hall & Hcanon).
    + simpl. now rewrite H1, Hhex.
    + simpl. now rewrite H2, Hlow.
    + simpl in Hlen. repeat split; [lia | exact Hall | exact Hcanon].
Qed.

(** A generated id is an ObjectId in canonical form. *)
Lemma fresh_id_canonical (n : N) :
  ObjectId.cast (ObjectId.hex_fixed 24 n "") =
    Some (ObjectId.hex_fixed 24 n "").
Proof.
  destruct (hex_fixed_canonical 24 n "" eq_refl eq_refl)
    as (Hlen & Hall & Hcanon).
  unfold ObjectId.cast. rewrite Hlen, Hall, Hcanon. reflexivity.
Qed.

(** A string of 12 characters is cast to the id of its bytes. *)
Example cast_twelve_bytes :
  ObjectId.cast "abcdefghijkl" = Some "6162636465666768696a6b6c".
Proof. reflexivity. Qed.

Arguments ObjectId.hex_fixed : simpl never.

Lemma upsert_new (p : post) (ps : list post) :
  find_post (post_id p) ps = None -> upsert p ps = ps ++ [p].
Proof.
  unfold find_post. induction ps as [|q ps IH]; simpl; [reflexivity|].
  destruct (String.eqb (post_id q) (post_id p)); [discriminate|].
  intros H. now rewrite IH.
Qed.

Lemma remove_absent (oid : string) (ps : list post) :
  find_post oid ps = None ->
  filter (fun q => negb (String.eqb (post_id q) oid)) ps = ps.
Proof.
  unfold find_post. induction ps as [|q ps IH]; simpl; [reflexivity|].
  destruct (String.eqb (post_id q) oid); [discriminate|].
  intros H. simpl. now rewrite IH.
Qed.

(** X18. A post created by [POST /] and then deleted by its author with
    [DELETE /myposts/:postID], no repository call failing and the generated id
    being new to the collection: both requests answer 200, and the collection
    of posts is again what it was before the creation. *)
Theorem create_then_delete_restores (req del : request) (w : world)
        (t uoid : string) (u : user) :
  body_text req = Some t -> t <> "" ->
  faults w = [] ->
  ObjectId.cast (req_user_id req) = Some uoid ->
  find_user uoid (users w) = Some u ->
  find_post (ObjectId.hex_fixed 24 (oid_seed w) "") (posts w) = None ->
  req_user_id del = req_user_id req ->
  param_postID del = ObjectId.hex_fixed 24 (oid_seed w) "" ->
  let r1 := serve create_post req w in
  let r2 := serve delete_post del (world_of r1) in
  exists p,
    response_of r1 = Some (mkResponse 200 (PostDoc p)) /\
    post_id p = param_postID del /\
    response_of r2 = Some (mkResponse 200 (Msg "Post removed")) /\
    posts (world_of r2) = posts w.
Proof.
  intros Ht Hne Hf Hc Hfu Hnew Hsame Hpid r1 r2.
  assert (Hv : passes_validation CreatePost req)
    by (exact (non_empty_text_passes _ req t Ht Hne)).
  pose proof (fresh_id_canonical (oid_seed w)) as Hcanon.
  set (pid := ObjectId.hex_fixed 24 (oid_seed w) "") in *.
  set (p := mkPost pid t (user_name u) (user_avatar u) (req_user_id req)
                   (clock w) [] []).
  assert (E1 : r1 =
    mkResult (Some (mkResponse 200 (PostDoc p)))
      (mkWorld (upsert p (posts w)) (users w) [] (clock w)
               (oid_seed w + 1)%N (console w))
      None).
  { unfold r1, serve, p, pid. clear Hcanon Hnew Hpid r2 p pid.
    rewrite (handler_is_try_catch CreatePost req _ Hv). simpl.
    destruct w as [ps us fs ck seed con]. simpl in *. subst fs.
    unfold_handlers. unfold req_body_text. simpl. rewrite Hc. simpl.
    rewrite Hfu, Ht. reflexivity. }
  clearbody pid.
  assert (Hpost : find_post pid (upsert p (posts w)) = Some p)
    by (exact (find_post_upsert p (posts w))).
  assert (Hposts : filter (fun q => negb (String.eqb (post_id q) pid))
                          (upsert p (posts w)) = posts w).
  { rewrite (upsert_new p (posts w) Hnew), filter_app.
    rewrite (remove_absent _ _ Hnew).
    unfold p. cbn [filter post_id]. rewrite String.eqb_refl.
    apply app_nil_r. }
  assert (Hcast : ObjectId.cast (param_postID del) = Some pid)
    by (rewrite Hpid; exact Hcanon).
  exists p. split; [now rewrite E1|]. split; [now rewrite Hpid|].
  unfold r2. rewrite E1. cbn [world_of].
  rewrite (delete_post_owner_result del
             (mkWorld (upsert p (posts w)) (users w) [] (clock w)
                      (oid_seed w + 1)%N (console w))
             pid p eq_refl Hcast Hpost (eq_sym Hsame)).
  split; [reflexivity | exact Hposts].
Qed.

Lemma create_then_delete_restores_witness :
  let req := mkRequest Sample.alice_id "" "" "" (Some "hello") in
  let del := Sample.on_post Sample.alice_id "000000000000000000000000" in
  let r1 := serve create_post req Sample.w0 in
  let r2 := serve delete_post del (world_of r1) in
  exists p,
    response_of r1 = Some (mkResponse 200 (PostDoc p)) /\
    post_id p = param_postID del /\
    response_of r2 = Some (mkResponse 200 (Msg "Post removed")) /\
    posts (world_of r2) = posts Sample.w0.
Proof.
  apply (create_then_delete_restores
           (mkRequest Sample.alice_id "" "" "" (Some "hello"))
           (Sample.on_post Sample.alice_id "000000000000000000000000")
           Sample.w0 "hello" Sample.alice_id Sample.alice).
  - reflexivity.
  - discriminate.
  - reflexivity.
  - reflexivity.
  - reflexivity.
  - reflexivity.
  - reflexivity.
  - reflexivity.
Defined.

(** X19. Deleting the same post a second time, no repository call failing: the
    first request is answered 200, the second finds [null], throws on
    [post.user] and gets no response at all; the collection stays as the first
    request left it. *)
Theorem delete_post_twice (req : request) (w : world) (oid : string)
        (p : post) :
  faults w = [] ->
  ObjectId.cast (param_postID req) = Some oid ->
  find_post oid (posts w) = Some p ->
  post_user p = req_user_id req ->
  let r1 := serve delete_post req w in
  let r2 := serve delete_post req (world_of r1) in
  response_of r1 = Some (mkResponse 200 (Msg "Post removed")) /\
  response_of r2 = None /\
  uncaught r2 = None /\
  world_of r2 = world_of r1.
Proof.
  intros Hf Hc Hp Hu r1 r2. unfold r2, r1.
  rewrite (delete_post_owner_result req w oid p Hf Hc Hp Hu).
  cbn [world_of response_of]. split; [reflexivity|].
  pose proof (find_post_removed oid (posts w)) as Hgone.
  destruct w as [ps us fs ck seed con]. simpl in *. subst fs.
  unfold_handlers. simpl. rewrite Hc. simpl. rewrite Hgone. simpl.
  repeat split.
Qed.

Lemma delete_post_twice_witness :
  let req := Sample.on_post Sample.bob_id Sample.post2_id in
  let r1 := serve delete_post req Sample.w0 in
  let r2 := serve delete_post req (world_of r1) in
  response_of r1 = Some (mkResponse 200 (Msg "Post removed")) /\
  response_of r2 = None /\
  uncaught r2 = None /\
  world_of r2 = world_of r1.
Proof.
  apply (delete_post_twice
           (Sample.on_post Sample.bob_id Sample.post2_id) Sample.w0
           Sample.post2_id Sample.post2).
  - reflexivity.
  - reflexivity.
  - reflexivity.
  - reflexivity.
Defined.

(** ** An acting user without a document *)

(** X20. [POST /] and [POST /comment/:postID] with a non-empty text by an acting
    user whose id is well formed but has no document, no repository call
    failing: [user.name] on [null] throws, the answer is the generic 500, and
    no post is created or changed. *)
Theorem missing_user_is_server_error (req : request) (w : world)
        (t uoid : string) :
  body_text req = Some t -> t <> "" ->
  faults w = [] ->
  ObjectId.cast (req_user_id req) = Some uoid ->
  find_user uoid (users w) = None ->
  response_of (serve create_post req w) = Some server_error_response /\
  posts (world_of (serve create_post req w)) = posts w /\
  response_of (serve add_comment req w) = Some server_error_response /\
  posts (world_of (serve add_comment req w)) = posts w.
Proof.
  intros Ht Hne Hf Hu Hfu.
  pose proof (non_empty_text_passes
                "Text is required to create a post." req t Ht Hne) as Hv1.
  pose proof (non_empty_text_passes "Text is required" req t Ht Hne) as Hv2.
  unfold serve, create_post, add_comment. rewrite Hv1, Hv2.
  destruct w as [ps us fs ck seed con]. simpl in *. subst fs.
  unfold_handlers. simpl. rewrite Hu. simpl. rewrite Hfu. simpl.
  split; [reflexivity|]. split; [reflexivity|].
  destruct (ObjectId.cast (param_postID req)) as [oid|]; simpl;
    try rewrite Hu; simpl; try rewrite Hfu; simpl; split; reflexivity.
Qed.

Lemma missing_user_is_server_error_witness :
  let req :=
    mkRequest Sample.missing_id Sample.post1_id "" "" (Some "hi") in
  response_of (serve create_post req Sample.w0) =
    Some server_error_response /\
  posts (world_of (serve create_post req Sample.w0)) = posts Sample.w0 /\
  response_of (serve add_comment req Sample.w0) =
    Some server_error_response /\
  posts (world_of (serve add_comment req Sample.w0)) = posts Sample.w0.
Proof.
  apply (missing_user_is_server_error
           (mkRequest Sample.missing_id Sample.post1_id "" "" (Some "hi"))
           Sample.w0 "hi" Sample.missing_id).
  - reflexivity.
  - discriminate.
  - reflexivity.
  - reflexivity.
  - reflexivity.
Defined.

(** X21. [DELETE /delete_comment/:postID/:comment_id] on a comment of a stored
    post by an acting user whose id is well formed but has no document, no
    repository call failing: [user.id] on [null] throws, the [catch] clause
    throws in turn on [postID], and the request gets no response, whoever owns
    the post and the comment; nothing changes. *)
Theorem delete_comment_missing_user (req : request) (w : world)
        (oid uoid : string) (p : post) (c : comment) :
  faults w = [] ->
  ObjectId.cast (param_postID req) = Some oid ->
  find_post oid (posts w) = Some p ->
  find (fun c => String.eqb (comment_id c) (param_comment_id req))
       (post_comments p) = Some c ->
  ObjectId.cast (req_user_id req) = Some uoid ->
  find_user uoid (users w) = None ->
  serve delete_comment req w =
    mkResult None w (Some (Js.not_defined "postID")).
Proof.
  intros Hf Hc Hp Hcm Hu Hfu.
  destruct w as [ps us fs ck seed con]. simpl in *. subst fs.
  unfold_handlers. simpl. rewrite Hc. simpl. rewrite Hp. simpl.
  rewrite Hu. simpl. rewrite Hfu, Hcm. reflexivity.
Qed.

Lemma delete_comment_missing_user_witness :
  serve delete_comment
        (mkRequest Sample.missing_id Sample.post1_id "" Sample.comment1_id
                   None)
        Sample.w0 =
    mkResult None Sample.w0 (Some (Js.not_defined "postID")).
Proof.
  apply (delete_comment_missing_user
           (mkRequest Sample.missing_id Sample.post1_id ""
                      Sample.comment1_id None)
           Sample.w0 Sample.post1_id Sample.missing_id Sample.post1
           Sample.comment1).
  - reflexivity.
  - reflexivity.
  - reflexivity.
  - reflexivity.
  - reflexivity.
  - reflexivity.
Defined.
